(** * Conversation / tracing orchestration core of financial-ai-analyst

    A shallow embedding of
      - [config/langsmith_config.py]   (the observability sink),
      - [agents/enhanced_base_agent.py] (the agent execution contract),
      - [services/enhanced_qa_chatbot.py] (the conversational orchestrator),
      - [config/azure_config.py]       (the Azure settings),
      - the session functions of [app.py] (the Streamlit page) and the
        handlers of [main.py] (the FastAPI application),
    and the properties of these that the specification states.

    Python coroutines are modelled sequentially: every [await] in these
    files is awaited on the spot, so one call is one logical flow of
    control.  The methods [execute], [_call_llm], [ask_question] and
    [start_conversation_session] are defined by their bodies; the
    [@traceable] wrapper of the langsmith package, which is external to the
    repository, is the combinator [traceable] around a body.  A decorated
    call from [w] is the body run from the world that the reads of the
    wrapper leave, so a statement on a body at every world is one on the
    decorated call too, with the ids counted from after those reads. *)

From Stdlib Require Import List String Ascii ZArith NArith Lia Bool Permutation
  DecimalString.
Import ListNotations.
Open Scope string_scope.

(** ** Python values *)

#[local] Set Warnings "-register-all".

Inductive pyval : Type :=
| PNone
| PBool (b : bool)
| PInt (z : Z)
| PStr (s : string)
| PList (l : list pyval)
| PDict (d : list (string * pyval)).

(** A [dict] with string keys, in insertion order. *)
Definition dict : Type := list (string * pyval).

(** An instance of (a subclass of) [Exception]: what [except Exception]
    catches.  [str(e)] is its message, [type(e).__name__] its type name. *)
Record exn : Type := { exc_type : string; exc_msg : string }.

Definition str_exn (e : exn) : string := exc_msg e.

(** [bool(s)] for a [str]. *)
Definition str_truthy (s : string) : bool :=
  match s with EmptyString => false | String _ _ => true end.

(** [bool(v)]. *)
Definition truthy (v : pyval) : bool :=
  match v with
  | PNone => false
  | PBool b => b
  | PInt z => negb (Z.eqb z 0)
  | PStr s => str_truthy s
  | PList l => match l with [] => false | _ :: _ => true end
  | PDict d => match d with [] => false | _ :: _ => true end
  end.

(** [len(l)] for a list. *)
Definition len {A : Type} (l : list A) : Z := Z.of_nat (List.length l).

(** A [str] is a sequence of code points.  It is held as its UTF-8
    encoding, which is what a string literal of this file is: a byte
    [10xxxxxx] continues the character that the bytes before it began, and
    every other byte begins one. *)
Definition continuation (c : ascii) : bool :=
  let n := nat_of_ascii c in Nat.leb 128 n && Nat.ltb n 192.

(** [len(s)] for a [str]: the number of its characters. *)
Fixpoint str_len (s : string) : nat :=
  match s with
  | EmptyString => 0
  | String c s' => (if continuation c then 0 else 1) + str_len s'
  end.

(** [s[:n]] for a [str]: its first [n] characters, or all of it. *)
Fixpoint str_prefix (n : nat) (s : string) : string :=
  match s with
  | EmptyString => EmptyString
  | String c s' =>
      if continuation c then String c (str_prefix n s')
      else match n with
           | O => EmptyString
           | S k => String c (str_prefix k s')
           end
  end.

Fixpoint dict_get (d : dict) (k : string) : option pyval :=
  match d with
  | [] => None
  | (k', v) :: d' => if String.eqb k' k then Some v else dict_get d' k
  end.

(** [d[k] = v]: replaces in place when the key is there, appends otherwise. *)
Fixpoint dict_set (d : dict) (k : string) (v : pyval) : dict :=
  match d with
  | [] => [(k, v)]
  | (k', v') :: d' =>
      if String.eqb k' k then (k', v) :: d' else (k', v') :: dict_set d' k v
  end.

(** [{**d, **kwargs}]. *)
Definition dict_update (d kwargs : dict) : dict :=
  fold_left (fun acc kv => dict_set acc (fst kv) (snd kv)) kwargs d.

Definition dict_keys (d : dict) : list string := map fst d.

(** [x or []] for an optional list. *)
Definition or_empty (h : option (list pyval)) : list pyval :=
  match h with Some l => l | None => [] end.

(** [str.lower], on the ASCII letters; the bytes of the other characters
    are kept. *)
Definition lower_ascii (c : ascii) : ascii :=
  let n := nat_of_ascii c in
  if Nat.leb 65 n && Nat.leb n 90 then ascii_of_nat (n + 32) else c.

Fixpoint lower (s : string) : string :=
  match s with
  | EmptyString => EmptyString
  | String c s' => String (lower_ascii c) (lower s')
  end.

(** ** [str(uuid.uuid4())]

    [uuid4] reads 16 bytes of [os.urandom], sets the RFC 4122 variant and the
    version 4, and [str] prints the 128-bit number as 32 hexadecimal digits in
    groups of 8-4-4-4-12. *)
Module Uuid.

Definition hexdigits : list ascii := list_ascii_of_string "0123456789abcdef".

Definition hex_digit (d : N) : ascii := nth (N.to_nat d) hexdigits "0"%char.

(** ['%0<width>x' % v], for [v < 16 ^ width]. *)
Fixpoint hex_fixed (width : nat) (v : N) : list ascii :=
  match width with
  | O => []
  | S k => hex_fixed k (N.div v 16) ++ [hex_digit (N.modulo v 16)]
  end.

(** [UUID(bytes=b, version=4).int] where [r] is [int.from_bytes(b)]. *)
Definition uuid4_int (r : N) : N :=
  let i := N.modulo r (2 ^ 128) in
  let i := N.ldiff i (N.shiftl 0xc000 48) in
  let i := N.lor i (N.shiftl 0x8000 48) in
  let i := N.ldiff i (N.shiftl 0xf000 64) in
  N.lor i (N.shiftl 4 76).

(** What [uuid4] keeps of a read [r]: all its bits but the two of the
    variant and the four of the version, which it overwrites. *)
Definition random_bits (r : N) : N :=
  N.ldiff (N.ldiff (N.modulo r (2 ^ 128)) (N.shiftl 0xc000 48))
          (N.shiftl 0xf000 64).

(** [l[a:b]] *)
Definition slice {A : Type} (a b : nat) (l : list A) : list A :=
  firstn (b - a) (skipn a l).

Definition dash : ascii := "-"%char.

(** [UUID.__str__] *)
Definition uuid_str (i : N) : string :=
  let hex := hex_fixed 32 i in
  string_of_list_ascii
    (slice 0 8 hex ++ dash :: slice 8 12 hex ++ dash :: slice 12 16 hex ++
     dash :: slice 16 20 hex ++ dash :: skipn 20 hex).

End Uuid.

(** ** Results and the state-and-exception monad *)

Inductive result (A : Type) : Type :=
| Ok (a : A)
| Raise (e : exn).
Arguments Ok {A} a.
Arguments Raise {A} e.

(** A computation over a state [S] that returns or raises; the state it
    leaves is kept in both cases, as the effects of a Python block are. *)
Definition M (S A : Type) : Type := S -> result A * S.

Definition ret {S A : Type} (a : A) : M S A := fun s => (Ok a, s).

Definition bind {S A B : Type} (m : M S A) (k : A -> M S B) : M S B :=
  fun s =>
    match m s with
    | (Ok a, s') => k a s'
    | (Raise e, s') => (Raise e, s')
    end.

Definition raise {S A : Type} (e : exn) : M S A := fun s => (Raise e, s).

(** [try: body  except Exception as e: handler e] *)
Definition try_except {S A : Type} (body : M S A) (handler : exn -> M S A)
  : M S A :=
  fun s =>
    match body s with
    | (Ok a, s') => (Ok a, s')
    | (Raise e, s') => handler e s'
    end.

Declare Scope py_scope.
Delimit Scope py_scope with py.
Notation "x <- c1 ;; c2" := (bind c1 (fun x => c2))
  (at level 100, c1 at next level, right associativity) : py_scope.
Notation "c1 ;; c2" := (bind c1 (fun _ => c2))
  (at level 100, right associativity) : py_scope.
Open Scope py_scope.

(** A local variable of a function body that a [try] block assigns and its
    [except] handler reads: the state is extended with the variable for the
    extent of the body. *)
Definition with_local {L S A : Type} (init : L) (body : M (L * S) A) : M S A :=
  fun s => let '(r, (_, s')) := body (init, s) in (r, s').

Definition lift {L S A : Type} (m : M S A) : M (L * S) A :=
  fun ls => let '(r, s') := m (snd ls) in (r, (fst ls, s')).

Definition get_local {L S : Type} : M (L * S) L :=
  fun ls => (Ok (fst ls), ls).

Definition set_local {L S : Type} (l : L) : M (L * S) unit :=
  fun ls => (Ok tt, (l, snd ls)).

(** [if self.enable_tracing and run_id: k run_id], for a [run_id] that is
    [None] or a [str]. *)
Definition when_run {S : Type} (enable_tracing : bool) (run_id : option string)
    (k : string -> M S unit) : M S unit :=
  match run_id with
  | Some id => if enable_tracing && str_truthy id then k id else ret tt
  | None => ret tt
  end.

(** The value of a variable that is [None] or a [str]. *)
Definition opt_str (o : option string) : pyval :=
  match o with Some s => PStr s | None => PNone end.

(** ** The trace *)

Inductive log_level : Type := INFO | WARNING | ERROR.

(** A message of [langchain_core.messages.BaseMessage]. *)
Record message : Type := { msg_content : pyval }.

(** A call on the [langsmith.Client]. *)
Inductive client_call : Type :=
| CreateRun (name : string) (inputs : dict) (project_name : string)
            (kwargs : dict)
| EndRun (run_id : string) (outputs : option dict) (error : option exn).

(** A call on a functional collaborator. *)
Inductive stage_call : Type :=
| ExtractCompanyInfo (question : string)
| SearchDocuments (company_info : pyval) (question : string)
| GenerateAnswer (question : string) (relevant_docs : list pyval)
                 (company_info : pyval)
| AgentExecute (input_data : dict)
| LlmInvoke (messages : list message) (kwargs : dict).

(** What the core does that can be seen from outside, oldest first. *)
Inductive event : Type :=
| EvLog (level : log_level) (msg : string) (fields : dict)
| EvClient (c : client_call)
| EvCall (c : stage_call).

(** The response object of a model call: its attributes and its [str]. *)
Record response : Type := { resp_attrs : dict; resp_str : string }.

(** [getattr(o, name, default)] *)
Definition getattr (o : response) (name : string) (default : pyval) : pyval :=
  match dict_get (resp_attrs o) name with
  | Some v => v
  | None => default
  end.

(** ** The world and the external collaborators *)

Section Core.

(** [B] is the state of the remote tracing backend, [E] the state of
    everything the functional collaborators work on (model backend,
    document store).  The two are disjoint: the sink owns its spans, and no
    collaborator is handed the sink. *)
Variables B E : Type.

Record world : Type := {
  w_entropy : nat -> N;   (* the successive reads of os.urandom *)
  w_drawn : nat;          (* how many of them were read *)
  w_backend : B;
  w_ext : E;
  w_trace : list event
}.

Definition emit (ev : event) : M world unit :=
  fun w => (Ok tt, {| w_entropy := w_entropy w; w_drawn := w_drawn w;
                      w_backend := w_backend w; w_ext := w_ext w;
                      w_trace := w_trace w ++ [ev] |}).

(** A call of a collaborator that works on [E]: it is recorded, then run. *)
Definition call_ext {A : Type} (c : stage_call) (f : E -> result A * E)
  : M world A :=
  fun w =>
    let '(r, x) := f (w_ext w) in
    (r, {| w_entropy := w_entropy w; w_drawn := w_drawn w;
           w_backend := w_backend w; w_ext := x;
           w_trace := w_trace w ++ [EvCall c] |}).

(** A call of the client, which works on [B]: it is recorded, then run. *)
Definition call_backend {A : Type} (c : client_call)
    (f : B -> result A * B) : M world A :=
  fun w =>
    let '(r, b) := f (w_backend w) in
    (r, {| w_entropy := w_entropy w; w_drawn := w_drawn w;
           w_backend := b; w_ext := w_ext w;
           w_trace := w_trace w ++ [EvClient c] |}).

(** [str(uuid.uuid4())] *)
Definition uuid4_str : M world string :=
  fun w =>
    (Ok (Uuid.uuid_str (Uuid.uuid4_int (w_entropy w (w_drawn w)))),
     {| w_entropy := w_entropy w; w_drawn := S (w_drawn w);
        w_backend := w_backend w; w_ext := w_ext w;
        w_trace := w_trace w |}).

(** *** [@traceable] of the langsmith package

    The decorated methods run inside the wrapper of the package.  The
    wrapper passes the arguments on and returns or re-raises what the method
    returns or raises.  When the package traces (LANGSMITH_TRACING is true
    at the call) it opens a run of its own around the call, under the
    [name] of the decorator, and draws the id of that run from [os.urandom]
    before the method starts; the run is sent by the package's own client,
    which is not [langsmith_config.client].  [reads] is the number of reads
    of [os.urandom] that the wrapper makes for one call: none when the
    package does not trace, one for an id that is a [uuid4]. *)

(** One read of [os.urandom]. *)
Definition os_urandom : M world N :=
  fun w =>
    (Ok (w_entropy w (w_drawn w)),
     {| w_entropy := w_entropy w; w_drawn := S (w_drawn w);
        w_backend := w_backend w; w_ext := w_ext w;
        w_trace := w_trace w |}).

Fixpoint urandom_reads (n : nat) : M world unit :=
  match n with
  | O => ret tt
  | S k => _ <- os_urandom;; urandom_reads k
  end.

Definition traceable {A : Type} (name : string) (reads : nat)
    (method : M world A) : M world A :=
  urandom_reads reads;; method.

(** *** utils/logger.py: the structlog logger

    [logger.bind] with a context gives a logger whose lines carry the
    context, then the fields of the call, a field of the call replacing one
    of the context with the same key. *)

Definition logger_info (msg : string) (fields : dict) : M world unit :=
  emit (EvLog INFO msg fields).

Definition logger_warning (msg : string) (fields : dict) : M world unit :=
  emit (EvLog WARNING msg fields).

Definition logger_error (msg : string) (fields : dict) : M world unit :=
  emit (EvLog ERROR msg fields).

(** ** config/langsmith_config.py *)

(** The two methods of [langsmith.Client] that the sink calls. *)
Record Client : Type := {
  client_create_run :
    string -> dict -> string -> dict -> B -> result pyval * B;
  client_end_run :
    string -> option dict -> option exn -> B -> result unit * B
}.

Record LangSmithConfig : Type := {
  enabled : bool;
  api_key : option string;
  project_name : string;
  endpoint : string;
  client : option Client
}.

(** [os.getenv(k)] and [os.getenv(k, default)] *)
Fixpoint getenv (environ : list (string * string)) (k : string)
  : option string :=
  match environ with
  | [] => None
  | (k', v) :: rest => if String.eqb k' k then Some v else getenv rest k
  end.

Definition getenv_default (environ : list (string * string)) (k d : string)
  : string :=
  match getenv environ k with Some v => v | None => d end.

(** [LangSmithConfig.__init__] with [_initialize_client] inlined at its one
    call; [Client_new api_key api_url] is the constructor of the client. *)
Definition LangSmithConfig_init (environ : list (string * string))
    (Client_new : option string -> string -> result Client)
  : M world LangSmithConfig :=
  let enabled0 :=
    String.eqb (lower (getenv_default environ "LANGSMITH_TRACING" "false"))
               "true" in
  let api_key0 := getenv environ "LANGSMITH_API_KEY" in
  let project_name0 := getenv_default environ "LANGSMITH_PROJECT" "financial-ai" in
  let endpoint0 :=
    getenv_default environ "LANGSMITH_ENDPOINT" "https://api.smith.langchain.com" in
  let has_key := match api_key0 with Some k => str_truthy k | None => false end in
  enabled1 <-
    (if enabled0 && negb has_key then
       logger_warning
         "LangSmith tracing is enabled but LANGSMITH_API_KEY is not set" [];;
       ret false
     else ret enabled0);;
  if enabled1 then
    try_except
      (c <- (fun w => (Client_new api_key0 endpoint0, w));;
       logger_info "LangSmith client initialized"
                   [("project", PStr project_name0)];;
       ret {| enabled := true; api_key := api_key0;
              project_name := project_name0; endpoint := endpoint0;
              client := Some c |})
      (fun e =>
         logger_error "Failed to initialize LangSmith client"
                      [("error", PStr (str_exn e))];;
         ret {| enabled := false; api_key := api_key0;
                project_name := project_name0; endpoint := endpoint0;
                client := None |})
  else
    ret {| enabled := false; api_key := api_key0;
           project_name := project_name0; endpoint := endpoint0;
           client := None |}.

Definition is_enabled (self : LangSmithConfig) : bool := enabled self.

Definition get_project_name (self : LangSmithConfig) : string :=
  project_name self.

(** [LangSmithConfig.create_run(name, inputs, **kwargs)] *)
Definition create_run (self : LangSmithConfig) (name : string)
    (inputs : dict) (kwargs : dict) : M world pyval :=
  match enabled self, client self with
  | true, Some c =>
      try_except
        (call_backend
           (CreateRun name inputs (project_name self) kwargs)
           (client_create_run c name inputs (project_name self) kwargs))
        (fun e =>
           logger_error "Failed to create LangSmith run"
                        [("error", PStr (str_exn e))];;
           ret PNone)
  | _, _ => ret PNone
  end.

(** [LangSmithConfig.end_run(run_id, outputs=None, error=None)] *)
Definition end_run (self : LangSmithConfig) (run_id : string)
    (outputs : option dict) (error : option exn) : M world unit :=
  match enabled self, client self with
  | true, Some c =>
      try_except
        (call_backend
           (EndRun run_id outputs error)
           (client_end_run c run_id outputs error))
        (fun e =>
           logger_error "Failed to end LangSmith run"
                        [("error", PStr (str_exn e))])
  | _, _ => ret tt
  end.

Definition get_client (self : LangSmithConfig) : option Client :=
  client self.

(** The module-level instance [langsmith_config = LangSmithConfig()], which
    nothing assigns to after its construction. *)
Variable langsmith_config : LangSmithConfig.

(** ** agents/enhanced_base_agent.py *)

(** [AzureChatOpenAI]: the one method the agent calls. *)
Record LLM : Type := {
  ainvoke : list message -> dict -> E -> result response * E
}.

(** An instance of a concrete subclass of [EnhancedBaseAgent]: its
    attributes and its implementation of the abstract [_execute]. *)
Record EnhancedBaseAgent : Type := {
  agent_logger : dict;     (* the context bound to [self.logger] *)
  agent_enable_tracing : bool;
  agent_name : string;
  llm : LLM;
  _execute : dict -> E -> result dict * E
}.

(** [EnhancedBaseAgent.__init__], for the class named [class_name]. *)
Definition EnhancedBaseAgent_init (class_name : string) (the_llm : LLM)
    (impl : dict -> E -> result dict * E) (enable_tracing : bool)
  : EnhancedBaseAgent :=
  {| agent_logger := [("agent", PStr class_name)];
     agent_enable_tracing := enable_tracing && is_enabled langsmith_config;
     agent_name := class_name;
     llm := the_llm;
     _execute := impl |}.

(** The body of [EnhancedBaseAgent.execute], which is decorated with
    [@traceable(name=agent_execute)]. *)
Definition execute (self : EnhancedBaseAgent) (input_data : dict)
  : M world dict :=
  with_local (None : option string)
    (try_except
       ((if agent_enable_tracing self then
           rid <- lift uuid4_str;;
           set_local (Some rid);;
           lift (create_run langsmith_config
                   (agent_name self ++ "_execute") input_data
                   [("run_id", PStr rid);
                    ("tags", PList [PStr "agent";
                                    PStr (lower (agent_name self))])]);;
           ret tt
         else ret tt);;
        lift (logger_info "Agent execution started"
                (dict_update (agent_logger self)
                   [("input_keys", PList (map PStr (dict_keys input_data)));
                    ("tracing_enabled",
                     PBool (agent_enable_tracing self))]));;
        result <- lift (call_ext (AgentExecute input_data)
                                 (_execute self input_data));;
        lift (logger_info "Agent execution completed"
                (dict_update (agent_logger self)
                   [("result_keys", PList (map PStr (dict_keys result)))]));;
        run_id <- get_local;;
        when_run (agent_enable_tracing self) run_id
          (fun id => lift (end_run langsmith_config id (Some result) None));;
        ret result)
       (fun e =>
          lift (logger_error "Agent execution failed"
                  (dict_update (agent_logger self)
                     [("error", PStr (str_exn e));
                      ("error_type", PStr (exc_type e))]));;
          run_id <- get_local;;
          when_run (agent_enable_tracing self) run_id
            (fun id => lift (end_run langsmith_config id None (Some e)));;
          raise e)).

(** The body of [EnhancedBaseAgent._call_llm(messages, **kwargs)], which
    is decorated with [@traceable(name=llm_call)]. *)
Definition _call_llm (self : EnhancedBaseAgent) (messages : list message)
    (kwargs : dict) : M world pyval :=
  with_local (None : option string)
    (try_except
       ((if agent_enable_tracing self then
           rid <- lift uuid4_str;;
           set_local (Some rid);;
           lift (create_run langsmith_config
                   (agent_name self ++ "_llm_call")
                   (dict_update
                      [("messages", PList (map msg_content messages))]
                      kwargs)
                   [("run_id", PStr rid);
                    ("tags", PList [PStr "llm";
                                    PStr (lower (agent_name self))])]);;
           ret tt
         else ret tt);;
        response <- lift (call_ext (LlmInvoke messages kwargs)
                                   (ainvoke (llm self) messages kwargs));;
        let result := getattr response "content" (PStr (resp_str response)) in
        run_id <- get_local;;
        when_run (agent_enable_tracing self) run_id
          (fun id => lift (end_run langsmith_config id
                             (Some [("response", result)]) None));;
        ret result)
       (fun e =>
          lift (logger_error "LLM call failed"
                  (dict_update (agent_logger self)
                     [("error", PStr (str_exn e))]));;
          run_id <- get_local;;
          when_run (agent_enable_tracing self) run_id
            (fun id => lift (end_run langsmith_config id None (Some e)));;
          raise e)).

(** ** services/enhanced_qa_chatbot.py *)

(** An [EnhancedQAChatbot].  Its base class [QAChatbot] supplies the three
    pipeline stages; they are attributes of the instance (the test suite
    assigns mocks to them), each a collaborator working on [E]. *)
Record EnhancedQAChatbot : Type := {
  enable_tracing : bool;
  chatbot_name : string;
  _extract_company_info : string -> E -> result pyval * E;
  _search_documents : pyval -> string -> E -> result (list pyval) * E;
  _generate_answer : string -> list pyval -> pyval -> E -> result pyval * E
}.

(** [EnhancedQAChatbot.__init__] over the stages of the base class. *)
Definition EnhancedQAChatbot_init
    (extract : string -> E -> result pyval * E)
    (search : pyval -> string -> E -> result (list pyval) * E)
    (generate : string -> list pyval -> pyval -> E -> result pyval * E)
    (enable_tracing0 : bool) : EnhancedQAChatbot :=
  {| enable_tracing := enable_tracing0 && is_enabled langsmith_config;
     chatbot_name := "EnhancedQAChatbot";
     _extract_company_info := extract;
     _search_documents := search;
     _generate_answer := generate |}.

(** The body of
    [EnhancedQAChatbot.ask_question(question, conversation_history=None)],
    which is decorated with [@traceable(name=chatbot_query)]. *)
Definition ask_question (self : EnhancedQAChatbot) (question : string)
    (conversation_history : option (list pyval)) : M world dict :=
  with_local (None : option string)
    (try_except
       ((if enable_tracing self then
           rid <- lift uuid4_str;;
           set_local (Some rid);;
           lift (create_run langsmith_config
                   (chatbot_name self ++ "_query")
                   [("question", PStr question);
                    ("conversation_history",
                     PList (or_empty conversation_history))]
                   [("run_id", PStr rid);
                    ("tags", PList [PStr "chatbot"; PStr "qa"; PStr "query"])]);;
           ret tt
         else ret tt);;
        lift (logger_info "Processing question"
                [("question",
                  PStr (if Nat.ltb 100 (str_len question)
                        then str_prefix 100 question ++ "..."
                        else question));
                 ("tracing_enabled", PBool (enable_tracing self))]);;

        (* Extract company information *)
        company_extraction_run_id <-
          (if enable_tracing self then
             id <- lift uuid4_str;;
             run_id <- get_local;;
             lift (create_run langsmith_config "company_extraction"
                     [("question", PStr question)]
                     [("run_id", PStr id);
                      ("tags", PList [PStr "chatbot";
                                      PStr "company-extraction"]);
                      ("parent_run_id", opt_str run_id)]);;
             ret (Some id)
           else ret None);;
        company_info <-
          try_except
            (company_info <-
               lift (call_ext (ExtractCompanyInfo question)
                              (_extract_company_info self question));;
             when_run (enable_tracing self) company_extraction_run_id
               (fun id =>
                  lift (end_run langsmith_config id
                          (Some [("company_info", company_info)]) None));;
             ret company_info)
            (fun e =>
               when_run (enable_tracing self) company_extraction_run_id
                 (fun id => lift (end_run langsmith_config id None (Some e)));;
               raise e);;

        (* Search documents *)
        document_search_run_id <-
          (if enable_tracing self then
             id <- lift uuid4_str;;
             run_id <- get_local;;
             lift (create_run langsmith_config "document_search"
                     [("company_info", company_info);
                      ("question", PStr question)]
                     [("run_id", PStr id);
                      ("tags", PList [PStr "chatbot"; PStr "document-search"]);
                      ("parent_run_id", opt_str run_id)]);;
             ret (Some id)
           else ret None);;
        relevant_docs <-
          try_except
            (relevant_docs <-
               lift (call_ext (SearchDocuments company_info question)
                              (_search_documents self company_info question));;
             when_run (enable_tracing self) document_search_run_id
               (fun id =>
                  lift (end_run langsmith_config id
                          (Some [("document_count",
                                  PInt (len relevant_docs))]) None));;
             ret relevant_docs)
            (fun e =>
               when_run (enable_tracing self) document_search_run_id
                 (fun id => lift (end_run langsmith_config id None (Some e)));;
               raise e);;

        (* Generate answer *)
        answer_generation_run_id <-
          (if enable_tracing self then
             id <- lift uuid4_str;;
             run_id <- get_local;;
             lift (create_run langsmith_config "answer_generation"
                     [("question", PStr question);
                      ("document_count", PInt (len relevant_docs));
                      ("company_info", company_info)]
                     [("run_id", PStr id);
                      ("tags", PList [PStr "chatbot";
                                      PStr "answer-generation"]);
                      ("parent_run_id", opt_str run_id)]);;
             ret (Some id)
           else ret None);;
        answer <-
          try_except
            (answer <-
               lift (call_ext
                       (GenerateAnswer question relevant_docs company_info)
                       (_generate_answer self question relevant_docs
                                         company_info));;
             when_run (enable_tracing self) answer_generation_run_id
               (fun id =>
                  lift (end_run langsmith_config id
                          (Some [("answer", answer)]) None));;
             ret answer)
            (fun e =>
               when_run (enable_tracing self) answer_generation_run_id
                 (fun id => lift (end_run langsmith_config id None (Some e)));;
               raise e);;

        let result : dict :=
          [("question", PStr question);
           ("answer", answer);
           ("company_info", company_info);
           ("sources", PList relevant_docs);
           ("document_count", PInt (len relevant_docs))] in
        lift (logger_info "Question processed successfully"
                [("document_count", PInt (len relevant_docs));
                 ("has_company", PBool (truthy company_info))]);;

        (* End main run *)
        run_id <- get_local;;
        when_run (enable_tracing self) run_id
          (fun id => lift (end_run langsmith_config id (Some result) None));;
        ret result)
       (fun e =>
          lift (logger_error "Failed to process question"
                  [("error", PStr (str_exn e))]);;
          run_id <- get_local;;
          when_run (enable_tracing self) run_id
            (fun id => lift (end_run langsmith_config id None (Some e)));;
          raise e)).

(** The body of
    [EnhancedQAChatbot.start_conversation_session(session_id=None)], which
    is decorated with [@traceable(name=conversation_session)]. *)
Definition start_conversation_session (self : EnhancedQAChatbot)
    (session_id : option string) : M world string :=
  session_id <-
    match session_id with
    | Some s => if negb (str_truthy s) then uuid4_str else ret s
    | None => uuid4_str
    end;;
  (if enable_tracing self then
     create_run langsmith_config (chatbot_name self ++ "_session")
       [("session_id", PStr session_id)]
       [("run_id", PStr session_id);
        ("tags", PList [PStr "chatbot"; PStr "session"])];;
     ret tt
   else ret tt);;
  logger_info "Conversation session started"
              [("session_id", PStr session_id)];;
  ret session_id.

(** [EnhancedQAChatbot.end_conversation_session(session_id, summary=None)] *)
Definition end_conversation_session (self : EnhancedQAChatbot)
    (session_id : string) (summary : option string) : M world unit :=
  (if enable_tracing self then
     let outputs : dict := [("session_ended", PBool true)] in
     let outputs :=
       match summary with
       | Some s => if str_truthy s then dict_set outputs "summary" (PStr s)
                   else outputs
       | None => outputs
       end in
     end_run langsmith_config session_id (Some outputs) None
   else ret tt);;
  logger_info "Conversation session ended" [("session_id", PStr session_id)].

(** [EnhancedQAChatbot.trace_custom_event(event_name, data, session_id=None)] *)
Definition trace_custom_event (self : EnhancedQAChatbot) (event_name : string)
    (data : dict) (session_id : option string) : M world unit :=
  if negb (enable_tracing self) then ret tt
  else
    try_except
      (run_id <- uuid4_str;;
       create_run langsmith_config event_name data
         [("run_id", PStr run_id);
          ("tags", PList [PStr "custom-event"]);
          ("parent_run_id", opt_str session_id)];;
       end_run langsmith_config run_id
         (Some [("event_processed", PBool true)]) None)
      (fun e =>
         logger_error "Failed to trace custom event"
           [("event_name", PStr event_name); ("error", PStr (str_exn e))]).

End Core.

Arguments w_entropy {B E} w.
Arguments w_drawn {B E} w.
Arguments w_backend {B E} w.
Arguments w_ext {B E} w.
Arguments w_trace {B E} w.
Arguments emit {B E} ev.
Arguments call_ext {B E A} c f.
Arguments call_backend {B E A} c f.
Arguments uuid4_str {B E}.
Arguments os_urandom {B E}.
Arguments urandom_reads {B E} n.
Arguments traceable {B E A} name reads method.
Arguments logger_info {B E} msg fields.
Arguments logger_warning {B E} msg fields.
Arguments logger_error {B E} msg fields.
Arguments client_create_run {B} c.
Arguments client_end_run {B} c.
Arguments enabled {B} l.
Arguments api_key {B} l.
Arguments project_name {B} l.
Arguments endpoint {B} l.
Arguments client {B} l.
Arguments LangSmithConfig_init {B E} environ Client_new.
Arguments is_enabled {B} self.
Arguments get_project_name {B} self.
Arguments get_client {B} self.
Arguments create_run {B E} self name inputs kwargs.
Arguments end_run {B E} self run_id outputs error.
Arguments ainvoke {E} l.
Arguments agent_logger {E} e.
Arguments agent_enable_tracing {E} e.
Arguments agent_name {E} e.
Arguments llm {E} e.
Arguments _execute {E} e.
Arguments EnhancedBaseAgent_init {B E} langsmith_config class_name the_llm impl enable_tracing.
Arguments execute {B E} langsmith_config self input_data.
Arguments _call_llm {B E} langsmith_config self messages kwargs.
Arguments enable_tracing {E} e.
Arguments chatbot_name {E} e.
Arguments _extract_company_info {E} e.
Arguments _search_documents {E} e.
Arguments _generate_answer {E} e.
Arguments EnhancedQAChatbot_init {B E} langsmith_config extract search generate enable_tracing0.
Arguments ask_question {B E} langsmith_config self question conversation_history.
Arguments start_conversation_session {B E} langsmith_config self session_id.
Arguments end_conversation_session {B E} langsmith_config self session_id summary.
Arguments trace_custom_event {B E} langsmith_config self event_name data session_id.

(** ** Observations on a trace *)

Definition client_calls (t : list event) : list client_call :=
  flat_map (fun ev => match ev with EvClient c => [c] | _ => [] end) t.

Definition stage_calls (t : list event) : list stage_call :=
  flat_map (fun ev => match ev with EvCall c => [c] | _ => [] end) t.

Definition is_log (ev : event) : Prop :=
  match ev with EvLog _ _ _ => True | _ => False end.

(** The sink reaches its client: [self.enabled and self.client]. *)
Definition sink_on {B : Type} (cfg : LangSmithConfig B) : bool :=
  enabled cfg && match client cfg with Some _ => true | None => false end.

(** [w] after a call of the sink that left the backend in [b] and added
    [d] to the trace; nothing else of the world is within its reach. *)
Definition after_sink {B E : Type} (w : world B E) (b : B) (d : list event)
  : world B E :=
  {| w_entropy := w_entropy w; w_drawn := w_drawn w; w_backend := b;
     w_ext := w_ext w; w_trace := w_trace w ++ d |}.

(** A span is closed with outputs or with an error, never both or neither. *)
Definition terminal (outputs : option dict) (error : option exn) : Prop :=
  match outputs, error with
  | Some _, None | None, Some _ => True
  | _, _ => False
  end.

(** [spans open calls]: run from the span ids in [open], the calls close
    only spans that are open, each [EndRun] closes one with outputs or an
    error, and no span is open once the calls are over. *)
Inductive spans : list string -> list client_call -> Prop :=
| spans_done : spans [] []
| spans_create : forall open name inputs project kwargs id rest,
    dict_get kwargs "run_id" = Some (PStr id) ->
    spans (id :: open) rest ->
    spans open (CreateRun name inputs project kwargs :: rest)
| spans_end : forall open1 open2 id outputs error rest,
    terminal outputs error ->
    spans (open1 ++ open2) rest ->
    spans (open1 ++ id :: open2) (EndRun id outputs error :: rest).

(** The [i]-th identifier that [str(uuid.uuid4())] yields from [w] on. *)
Definition nth_uuid {B E : Type} (w : world B E) (i : nat) : string :=
  Uuid.uuid_str (Uuid.uuid4_int (w_entropy w (i + w_drawn w))).

(** ** The pipeline of [ask_question], without its tracing

    The three stages run in this order on the collaborators' state, each on
    what the one before returned, and the first failure ends the run. *)

Inductive outcome (E : Type) : Type :=
| ExtractionFailed (e : exn) (x : E)
| SearchFailed (company_info : pyval) (e : exn) (x : E)
| GenerationFailed (company_info : pyval) (relevant_docs : list pyval)
                   (e : exn) (x : E)
| Answered (company_info : pyval) (relevant_docs : list pyval)
           (answer : pyval) (x : E).
Arguments ExtractionFailed {E} e x.
Arguments SearchFailed {E} company_info e x.
Arguments GenerationFailed {E} company_info relevant_docs e x.
Arguments Answered {E} company_info relevant_docs answer x.

Definition run_stages {E : Type} (self : EnhancedQAChatbot E)
    (question : string) (x0 : E) : outcome E :=
  match _extract_company_info self question x0 with
  | (Raise e, x1) => ExtractionFailed e x1
  | (Ok company_info, x1) =>
      match _search_documents self company_info question x1 with
      | (Raise e, x2) => SearchFailed company_info e x2
      | (Ok relevant_docs, x2) =>
          match _generate_answer self question relevant_docs company_info x2
          with
          | (Raise e, x3) => GenerationFailed company_info relevant_docs e x3
          | (Ok answer, x3) => Answered company_info relevant_docs answer x3
          end
      end
  end.

(** The exchange record of the specification. *)
Definition exchange (question : string) (answer company_info : pyval)
    (sources : list pyval) : dict :=
  [("question", PStr question);
   ("answer", answer);
   ("company_info", company_info);
   ("sources", PList sources);
   ("document_count", PInt (len sources))].

Definition outcome_result {E : Type} (question : string) (o : outcome E)
  : result dict :=
  match o with
  | ExtractionFailed e _ | SearchFailed _ e _ | GenerationFailed _ _ e _ =>
      Raise e
  | Answered company_info relevant_docs answer _ =>
      Ok (exchange question answer company_info relevant_docs)
  end.

Definition outcome_ext {E : Type} (o : outcome E) : E :=
  match o with
  | ExtractionFailed _ x | SearchFailed _ _ x | GenerationFailed _ _ _ x
  | Answered _ _ _ x => x
  end.

Definition outcome_stage_calls {E : Type} (question : string) (o : outcome E)
  : list stage_call :=
  match o with
  | ExtractionFailed _ _ => [ExtractCompanyInfo question]
  | SearchFailed ci _ _ =>
      [ExtractCompanyInfo question; SearchDocuments ci question]
  | GenerationFailed ci docs _ _ | Answered ci docs _ _ =>
      [ExtractCompanyInfo question; SearchDocuments ci question;
       GenerateAnswer question docs ci]
  end.

(** The calls that open the spans of one question: the root, and a child
    of the root [r] for a stage. *)
Definition open_root {B E : Type} (cfg : LangSmithConfig B)
    (self : EnhancedQAChatbot E) (question : string)
    (conversation_history : option (list pyval)) (r : string) : client_call :=
  CreateRun (chatbot_name self ++ "_query")
    [("question", PStr question);
     ("conversation_history", PList (or_empty conversation_history))]
    (project_name cfg)
    [("run_id", PStr r);
     ("tags", PList [PStr "chatbot"; PStr "qa"; PStr "query"])].

Definition open_child {B : Type} (cfg : LangSmithConfig B) (name : string)
    (inputs : dict) (tag : string) (id r : string) : client_call :=
  CreateRun name inputs (project_name cfg)
    [("run_id", PStr id);
     ("tags", PList [PStr "chatbot"; PStr tag]);
     ("parent_run_id", PStr r)].

(** The calls that reach the client for one question, by the outcome of its
    stages; [r], [c1], [c2], [c3] are the ids of the root and of the
    children. *)
Definition outcome_client_calls {B E : Type} (cfg : LangSmithConfig B)
    (self : EnhancedQAChatbot E) (question : string)
    (conversation_history : option (list pyval)) (r c1 c2 c3 : string)
    (o : outcome E) : list client_call :=
  let root := open_root cfg self question conversation_history r in
  let extraction :=
    open_child cfg "company_extraction" [("question", PStr question)]
               "company-extraction" c1 r in
  let search ci :=
    open_child cfg "document_search"
               [("company_info", ci); ("question", PStr question)]
               "document-search" c2 r in
  let generation ci (docs : list pyval) :=
    open_child cfg "answer_generation"
               [("question", PStr question);
                ("document_count", PInt (len docs));
                ("company_info", ci)]
               "answer-generation" c3 r in
  match o with
  | ExtractionFailed e _ =>
      [root; extraction; EndRun c1 None (Some e); EndRun r None (Some e)]
  | SearchFailed ci e _ =>
      [root; extraction; EndRun c1 (Some [("company_info", ci)]) None;
       search ci; EndRun c2 None (Some e); EndRun r None (Some e)]
  | GenerationFailed ci docs e _ =>
      [root; extraction; EndRun c1 (Some [("company_info", ci)]) None;
       search ci; EndRun c2 (Some [("document_count", PInt (len docs))]) None;
       generation ci docs; EndRun c3 None (Some e); EndRun r None (Some e)]
  | Answered ci docs answer _ =>
      [root; extraction; EndRun c1 (Some [("company_info", ci)]) None;
       search ci; EndRun c2 (Some [("document_count", PInt (len docs))]) None;
       generation ci docs; EndRun c3 (Some [("answer", answer)]) None;
       EndRun r (Some (exchange question answer ci docs)) None]
  end.

(** A stage of the pipeline fails with [e] from the collaborators' state
    [x0]: the stages called up to and with the failing one, and the state
    the failing one leaves. *)
Inductive stage_failure {E : Type} (self : EnhancedQAChatbot E)
    (question : string) (x0 : E) (e : exn) : list stage_call -> E -> Prop :=
| extraction_fails : forall x1,
    _extract_company_info self question x0 = (Raise e, x1) ->
    stage_failure self question x0 e [ExtractCompanyInfo question] x1
| search_fails : forall company_info x1 x2,
    _extract_company_info self question x0 = (Ok company_info, x1) ->
    _search_documents self company_info question x1 = (Raise e, x2) ->
    stage_failure self question x0 e
      [ExtractCompanyInfo question; SearchDocuments company_info question] x2
| generation_fails : forall company_info x1 relevant_docs x2 x3,
    _extract_company_info self question x0 = (Ok company_info, x1) ->
    _search_documents self company_info question x1 = (Ok relevant_docs, x2) ->
    _generate_answer self question relevant_docs company_info x2
      = (Raise e, x3) ->
    stage_failure self question x0 e
      [ExtractCompanyInfo question; SearchDocuments company_info question;
       GenerateAnswer question relevant_docs company_info] x3.

(** The run ids of the spans that the calls open, in order. *)
Definition created_ids (calls : list client_call) : list string :=
  flat_map (fun c => match c with
                     | CreateRun _ _ _ kwargs =>
                         match dict_get kwargs "run_id" with
                         | Some (PStr id) => [id]
                         | _ => []
                         end
                     | EndRun _ _ _ => []
                     end) calls.

(** The call records no error: it opens a span, or closes one with
    outputs. *)
Definition no_error (c : client_call) : Prop :=
  match c with
  | CreateRun _ _ _ _ => True
  | EndRun _ outputs error => outputs <> None /\ error = None
  end.

(** ** Instances of the test suite

    The collaborators of [tests/test_langsmith_integration.py] and of the
    scenarios of the specification, over backends without state. *)

Definition test_world : world unit unit :=
  {| w_entropy := fun n => N.of_nat n; w_drawn := 0; w_backend := tt;
     w_ext := tt; w_trace := [] |}.

Definition test_client : Client unit :=
  {| client_create_run := fun _ _ _ _ b => (Ok PNone, b);
     client_end_run := fun _ _ _ b => (Ok tt, b) |}.

Definition connection_error : exn :=
  {| exc_type := "ConnectionError"; exc_msg := "backend unreachable" |}.

Definition unreachable_client : Client unit :=
  {| client_create_run := fun _ _ _ _ b => (Raise connection_error, b);
     client_end_run := fun _ _ _ b => (Raise connection_error, b) |}.

Definition tracing_on : LangSmithConfig unit :=
  {| enabled := true; api_key := Some "test-key";
     project_name := "test-project";
     endpoint := "https://api.smith.langchain.com";
     client := Some test_client |}.

Definition tracing_unreachable : LangSmithConfig unit :=
  {| enabled := true; api_key := Some "test-key";
     project_name := "test-project";
     endpoint := "https://api.smith.langchain.com";
     client := Some unreachable_client |}.

Definition tracing_off : LangSmithConfig unit :=
  {| enabled := false; api_key := None; project_name := "financial-ai";
     endpoint := "https://api.smith.langchain.com"; client := None |}.

Definition mock_chatbot : EnhancedQAChatbot unit :=
  {| enable_tracing := true;
     chatbot_name := "EnhancedQAChatbot";
     _extract_company_info :=
       fun _ x => (Ok (PDict [("name", PStr "Test Corp")]), x);
     _search_documents := fun _ _ x => (Ok [PStr "doc1"; PStr "doc2"], x);
     _generate_answer := fun _ _ _ x => (Ok (PStr "Test answer"), x) |}.

Definition lookup_failure : exn :=
  {| exc_type := "LookupFailure"; exc_msg := "no such company" |}.

Definition search_failure : exn :=
  {| exc_type := "SearchFailure"; exc_msg := "index unavailable" |}.

(** A chatbot whose extraction raises. *)
Definition lost_chatbot : EnhancedQAChatbot unit :=
  {| enable_tracing := true;
     chatbot_name := "EnhancedQAChatbot";
     _extract_company_info := fun _ x => (Raise lookup_failure, x);
     _search_documents := fun _ _ x => (Ok [PStr "doc1"; PStr "doc2"], x);
     _generate_answer := fun _ _ _ x => (Ok (PStr "Test answer"), x) |}.

(** A chatbot whose search raises. *)
Definition blind_chatbot : EnhancedQAChatbot unit :=
  {| enable_tracing := true;
     chatbot_name := "EnhancedQAChatbot";
     _extract_company_info :=
       fun _ x => (Ok (PDict [("name", PStr "Test Corp")]), x);
     _search_documents := fun _ _ x => (Raise search_failure, x);
     _generate_answer := fun _ _ _ x => (Ok (PStr "Test answer"), x) |}.

Definition mock_llm : LLM unit :=
  {| ainvoke := fun _ _ x =>
       (Ok {| resp_attrs := [("content", PStr "test response")];
              resp_str := "content='test response'" |}, x) |}.

(** A model whose response has no [content]. *)
Definition bare_llm : LLM unit :=
  {| ainvoke := fun _ _ x =>
       (Ok {| resp_attrs := []; resp_str := "plain text" |}, x) |}.

(** [MockEnhancedAgent] *)
Definition MockEnhancedAgent (the_llm : LLM unit) (enable_tracing0 : bool)
  : EnhancedBaseAgent unit :=
  {| agent_logger := [("agent", PStr "MockEnhancedAgent")];
     agent_enable_tracing := enable_tracing0;
     agent_name := "MockEnhancedAgent";
     llm := the_llm;
     _execute := fun input_data x =>
       (Ok [("result", PStr "test"); ("input", PDict input_data)], x) |}.

(** [n] calls of the decorated [start_conversation_session()] one after the
    other, and the ids they return, first call first. *)
Fixpoint start_sessions {B E : Type} (cfg : LangSmithConfig B)
    (self : EnhancedQAChatbot E) (reads n : nat)
  : M (world B E) (list string) :=
  match n with
  | O => ret []
  | S k =>
      id <- traceable "conversation_session" reads
              (start_conversation_session cfg self None);;
      ids <- start_sessions cfg self reads k;;
      ret (id :: ids)
  end.

(** The reads of [os.urandom] that [uuid4] makes in [n] such calls from [w]
    on: in each call the wrapper's reads come first, the one of [uuid4]
    after them. *)
Definition session_reads {B E : Type} (w : world B E) (reads n : nat)
  : list N :=
  map (fun i => w_entropy w (reads + i * S reads + w_drawn w)) (seq 0 n).

(** [w] after [n] reads of [os.urandom]. *)
Definition after_reads {B E : Type} (n : nat) (w : world B E) : world B E :=
  {| w_entropy := w_entropy w; w_drawn := n + w_drawn w;
     w_backend := w_backend w; w_ext := w_ext w; w_trace := w_trace w |}.

(** [if not session_id]: no id was given, or the empty string. *)
Definition no_session_id (session_id : option string) : bool :=
  match session_id with
  | Some s => negb (str_truthy s)
  | None => true
  end.

(** ** Further observations *)

(** A log line of the sink itself: the error of a client call it caught. *)
Definition is_sink_log (ev : event) : Prop :=
  match ev with
  | EvLog ERROR msg _ =>
      msg = "Failed to create LangSmith run"
      \/ msg = "Failed to end LangSmith run"
  | _ => False
  end.

(** How a span is closed after a computation that returned or raised. *)
Definition close_with {A : Type} (outputs : A -> dict) (r : result A)
    (run_id : string) : client_call :=
  match r with
  | Ok a => EndRun run_id (Some (outputs a)) None
  | Raise e => EndRun run_id None (Some e)
  end.

(** The outputs with which [end_conversation_session] closes a session. *)
Definition session_outputs (summary : option string) : dict :=
  match summary with
  | Some s => if str_truthy s
              then [("session_ended", PBool true); ("summary", PStr s)]
              else [("session_ended", PBool true)]
  | None => [("session_ended", PBool true)]
  end.

(** The id that [start_conversation_session] settles on in [w]. *)
Definition session_id_of {B E : Type} (session_id : option string)
    (w : world B E) : string :=
  if no_session_id session_id then nth_uuid w 0
  else match session_id with Some s => s | None => "" end.

(** ** Further instances *)

Definition timeout_error : exn :=
  {| exc_type := "TimeoutError"; exc_msg := "model timed out" |}.

(** A model whose call raises. *)
Definition failing_llm : LLM unit :=
  {| ainvoke := fun _ _ x => (Raise timeout_error, x) |}.

(** The environment of [test_langsmith_enabled_with_api_key]. *)
Definition test_environ : list (string * string) :=
  [("LANGSMITH_TRACING", "true"); ("LANGSMITH_API_KEY", "test-key");
   ("LANGSMITH_PROJECT", "test-project")].

(** An environment that asks for tracing and gives no key. *)
Definition keyless_environ : list (string * string) :=
  [("LANGSMITH_TRACING", "True")].

Definition test_Client_new (k : option string) (url : string)
  : result (Client unit) := Ok test_client.

(** ** config/azure_config.py *)

(** The settings of [AzureConfig], once loaded. *)
Record AzureConfig : Type := {
  azure_openai_endpoint : string;
  azure_openai_api_key : string;
  azure_openai_api_version : string;
  azure_openai_chat_deployment : string;
  azure_openai_embeddings_endpoint : option string;
  azure_openai_embeddings_api_key : option string;
  azure_openai_embeddings_deployment : option string;
  azure_storage_connection_string : option string;
  azure_storage_container_name : string;
  embedding_model : string;
  chroma_db_path : string;
  document_storage_path : string;
  raw_document_path : string
}.

(** [all(l)] *)
Definition all (l : list pyval) : bool := forallb truthy l.

(** [AzureConfig.get_chat_config] *)
Definition get_chat_config (self : AzureConfig) : dict :=
  [("azure_endpoint", PStr (azure_openai_endpoint self));
   ("api_key", PStr (azure_openai_api_key self));
   ("api_version", PStr (azure_openai_api_version self));
   ("deployment_name", PStr (azure_openai_chat_deployment self))].

(** [AzureConfig.get_embeddings_config] *)
Definition get_embeddings_config (self : AzureConfig) : option dict :=
  if negb (all [opt_str (azure_openai_embeddings_endpoint self);
                opt_str (azure_openai_embeddings_api_key self);
                opt_str (azure_openai_embeddings_deployment self)])
  then None
  else Some [("azure_endpoint",
              opt_str (azure_openai_embeddings_endpoint self));
             ("api_key", opt_str (azure_openai_embeddings_api_key self));
             ("api_version", PStr (azure_openai_api_version self));
             ("deployment_name",
              opt_str (azure_openai_embeddings_deployment self))].

(** [AzureConfig.has_azure_embeddings] *)
Definition has_azure_embeddings (self : AzureConfig) : bool :=
  match get_embeddings_config self with Some _ => true | None => false end.

(** [AzureConfig.chat_deployment] *)
Definition chat_deployment (self : AzureConfig) : string :=
  azure_openai_chat_deployment self.

(** [AzureConfig.embeddings_deployment] *)
Definition embeddings_deployment (self : AzureConfig) : option string :=
  azure_openai_embeddings_deployment self.

(** ** app.py: the session functions of the Streamlit page

    [run_async] runs a coroutine to its end, which the sequential reading of
    the coroutines already does.  A key of [st.session_state] is absent
    ([None] here) or holds a value; reading an absent key as an attribute
    raises [AttributeError]. *)
Module App.

(** [str(n)] for a length. *)
Definition str_of_nat (n : nat) : string :=
  NilEmpty.string_of_uint (Nat.to_uint n).

Section App.

(** [DocumentProcessor] is the type of the document processors. *)
Variables B E DocumentProcessor : Type.
Variable langsmith_config : LangSmithConfig B.

Record SessionState : Type := {
  chatbot : option (option (EnhancedQAChatbot E));
  document_processor : option (option DocumentProcessor);
  conversation_history : option (list pyval);
  processed_documents : option (list pyval);
  session_id : option (option string);
  langsmith_enabled : option bool
}.

(** The page: its session state and the messages that [st.error] showed,
    oldest first. *)
Record Streamlit : Type := {
  session_state : SessionState;
  errors : list string
}.

(** [init_session_state] *)
Definition init_session_state (ss : SessionState) : SessionState :=
  let ss :=
    match chatbot ss with
    | None =>
        {| chatbot := Some None;
           document_processor := document_processor ss;
           conversation_history := conversation_history ss;
           processed_documents := processed_documents ss;
           session_id := session_id ss;
           langsmith_enabled := langsmith_enabled ss |}
    | Some _ => ss
    end in
  let ss :=
    match document_processor ss with
    | None =>
        {| chatbot := chatbot ss;
           document_processor := Some None;
           conversation_history := conversation_history ss;
           processed_documents := processed_documents ss;
           session_id := session_id ss;
           langsmith_enabled := langsmith_enabled ss |}
    | Some _ => ss
    end in
  let ss :=
    match conversation_history ss with
    | None =>
        {| chatbot := chatbot ss;
           document_processor := document_processor ss;
           conversation_history := Some [];
           processed_documents := processed_documents ss;
           session_id := session_id ss;
           langsmith_enabled := langsmith_enabled ss |}
    | Some _ => ss
    end in
  let ss :=
    match processed_documents ss with
    | None =>
        {| chatbot := chatbot ss;
           document_processor := document_processor ss;
           conversation_history := conversation_history ss;
           processed_documents := Some [];
           session_id := session_id ss;
           langsmith_enabled := langsmith_enabled ss |}
    | Some _ => ss
    end in
  let ss :=
    match session_id ss with
    | None =>
        {| chatbot := chatbot ss;
           document_processor := document_processor ss;
           conversation_history := conversation_history ss;
           processed_documents := processed_documents ss;
           session_id := Some None;
           langsmith_enabled := langsmith_enabled ss |}
    | Some _ => ss
    end in
  match langsmith_enabled ss with
  | None =>
      {| chatbot := chatbot ss;
         document_processor := document_processor ss;
         conversation_history := conversation_history ss;
         processed_documents := processed_documents ss;
         session_id := session_id ss;
         langsmith_enabled := Some (is_enabled langsmith_config) |}
  | Some _ => ss
  end.

(** The message of the [AttributeError] for an absent key, which the
    version of Streamlit decides. *)
Variable missing_attr_error_message : string -> string.

Definition attribute_error (name : string) : exn :=
  {| exc_type := "AttributeError";
     exc_msg := missing_attr_error_message name |}.

(** [st.session_state.<name>] *)
Definition attr {A : Type} (name : string)
    (field : SessionState -> option A) : M (Streamlit * world B E) A :=
  fun s =>
    match field (session_state (fst s)) with
    | Some v => (Ok v, s)
    | None => (Raise (attribute_error name), s)
    end.

(** The page after [st.session_state.session_id = v]. *)
Definition with_session_id (v : option string) (st : Streamlit)
  : Streamlit :=
  let ss := session_state st in
  {| session_state :=
       {| chatbot := chatbot ss;
          document_processor := document_processor ss;
          conversation_history := conversation_history ss;
          processed_documents := processed_documents ss;
          session_id := Some v;
          langsmith_enabled := langsmith_enabled ss |};
     errors := errors st |}.

(** [st.session_state.session_id = v] *)
Definition set_session_id (v : option string)
  : M (Streamlit * world B E) unit :=
  fun s => (Ok tt, (with_session_id v (fst s), snd s)).

(** [st.error(msg)] *)
Definition st_error (msg : string) : M (Streamlit * world B E) unit :=
  fun s =>
    (Ok tt,
     ({| session_state := session_state (fst s);
         errors := errors (fst s) ++ [msg] |}, snd s)).

(** [start_conversation_session] of app.py *)
Definition start_conversation_session
  : M (Streamlit * world B E) (option string) :=
  try_except
    (the_chatbot <- attr "chatbot" chatbot;;
     match the_chatbot with
     | Some bot =>
         enabled <- attr "langsmith_enabled" langsmith_enabled;;
         if enabled : bool then
           new_id <- lift (start_conversation_session langsmith_config bot
                             None);;
           set_session_id (Some new_id);;
           lift (logger_info "Conversation session started"
                   [("session_id", PStr new_id)]);;
           ret (Some new_id)
         else ret None
     | None => ret None
     end)
    (fun e =>
       st_error ("Failed to start conversation session: " ++ str_exn e);;
       lift (logger_error "Failed to start conversation session"
               [("error", PStr (str_exn e))]);;
       ret None).

(** [end_conversation_session] of app.py *)
Definition end_conversation_session : M (Streamlit * world B E) unit :=
  try_except
    (current <- attr "session_id" session_id;;
     match current with
     | Some id =>
         if str_truthy id then
           the_chatbot <- attr "chatbot" chatbot;;
           match the_chatbot with
           | Some bot =>
               history <- attr "conversation_history" conversation_history;;
               let summary :=
                 "Session with " ++ str_of_nat (List.length history)
                 ++ " interactions" in
               lift (end_conversation_session langsmith_config bot id
                       (Some summary));;
               current' <- attr "session_id" session_id;;
               lift (logger_info "Conversation session ended"
                       [("session_id", opt_str current')]);;
               set_session_id None
           | None => ret tt
           end
         else ret tt
     | None => ret tt
     end)
    (fun e =>
       lift (logger_error "Failed to end conversation session"
               [("error", PStr (str_exn e))])).

End App.

Arguments chatbot {E DocumentProcessor} s.
Arguments document_processor {E DocumentProcessor} s.
Arguments conversation_history {E DocumentProcessor} s.
Arguments processed_documents {E DocumentProcessor} s.
Arguments session_id {E DocumentProcessor} s.
Arguments langsmith_enabled {E DocumentProcessor} s.
Arguments session_state {E DocumentProcessor} s.
Arguments errors {E DocumentProcessor} s.
Arguments with_session_id {E DocumentProcessor} v st.
Arguments init_session_state {B E DocumentProcessor} langsmith_config ss.
Arguments start_conversation_session {B E DocumentProcessor}
  langsmith_config missing_attr_error_message.
Arguments end_conversation_session {B E DocumentProcessor} langsmith_config
  missing_attr_error_message.

End App.

(** ** main.py: the handlers of the FastAPI application

    A handler returns its response or raises; what it raises is a Python
    exception or an [HTTPException], which is an [Exception] too and which
    [except Exception] catches like any other. *)
Module Main.

Inductive app_exn : Type :=
| PyError (e : exn)
| HTTPException (status_code : Z) (detail : string).

Inductive response_or (A : Type) : Type :=
| Returned (a : A)
| Raised (e : app_exn).
Arguments Returned {A} a.
Arguments Raised {A} e.

Definition H (S A : Type) : Type := S -> response_or A * S.

Definition hret {S A : Type} (a : A) : H S A := fun s => (Returned a, s).

Definition hbind {S A B : Type} (m : H S A) (k : A -> H S B) : H S B :=
  fun s =>
    match m s with
    | (Returned a, s') => k a s'
    | (Raised e, s') => (Raised e, s')
    end.

Definition hraise {S A : Type} (e : app_exn) : H S A :=
  fun s => (Raised e, s).

(** [try: body  except Exception as e: handler e] *)
Definition htry_except {S A : Type} (body : H S A)
    (handler : app_exn -> H S A) : H S A :=
  fun s =>
    match body s with
    | (Returned a, s') => (Returned a, s')
    | (Raised e, s') => handler e s'
    end.

(** A computation of the core, called from a handler. *)
Definition await {S A : Type} (m : M S A) : H S A :=
  fun s =>
    match m s with
    | (Ok a, s') => (Returned a, s')
    | (Raise e, s') => (Raised (PyError e), s')
    end.

Declare Scope app_scope.
Delimit Scope app_scope with app.
Notation "x <- c1 ;; c2" := (hbind c1 (fun x => c2))
  (at level 100, c1 at next level, right associativity) : app_scope.
Notation "c1 ;; c2" := (hbind c1 (fun _ => c2))
  (at level 100, right associativity) : app_scope.

(** [ChatRequest] *)
Record ChatRequest : Type := {
  question : string;
  session_id : option string
}.

(** [ChatResponse], with the values it is constructed from. *)
Record ChatResponse : Type := {
  answer : pyval;
  sources : pyval;
  company_identified : pyval;
  response_session_id : string
}.

(** [d.get(k, default)] *)
Definition dict_get_default (d : dict) (k : string) (default : pyval)
  : pyval :=
  match dict_get d k with Some v => v | None => default end.

Section Main.

Variables B E : Type.
Variable langsmith_config : LangSmithConfig B.

(** [str(e)] for an [HTTPException], which the version of the framework
    decides. *)
Variable str_http : Z -> string -> string.

Definition str_app (e : app_exn) : string :=
  match e with
  | PyError e => str_exn e
  | HTTPException status_code detail => str_http status_code detail
  end.

(** The message of the [TypeError] of a call of [ask_question] with a
    keyword that is no parameter of it. *)
Variable unexpected_keyword : string -> string.

(** The message of the [TypeError] of a call of [ask_question] without
    its [question]. *)
Variable missing_argument : string.

(** A call [chatbot.ask_question(...)] by keywords: [question] and
    [conversation_history] when they are passed, and the names of the other
    keywords of the call.  The signature is
    [(self, question, conversation_history=None)]: another keyword, or no
    [question], is a [TypeError] before the body runs. *)
Definition ask_question_by_keywords (self : EnhancedQAChatbot E)
    (the_question : option string)
    (conversation_history : option (option (list pyval)))
    (others : list string) : M (world B E) dict :=
  match others with
  | k :: _ =>
      raise {| exc_type := "TypeError"; exc_msg := unexpected_keyword k |}
  | [] =>
      match the_question with
      | None =>
          raise {| exc_type := "TypeError"; exc_msg := missing_argument |}
      | Some q =>
          ask_question langsmith_config self q
            (match conversation_history with
             | Some h => h
             | None => None
             end)
      end
  end.

(** [chat], with the global [chatbot] as it is when the request comes. *)
Definition chat (chatbot : option (EnhancedQAChatbot E))
    (request : ChatRequest) : H (world B E) ChatResponse :=
  htry_except
    (match chatbot with
     | None =>
         hraise (HTTPException 500 "Chatbot service not initialized")
     | Some bot =>
         the_session_id <-
           (match session_id request with
            | Some s =>
                if negb (str_truthy s)
                then await (start_conversation_session langsmith_config bot
                              None)
                else hret s
            | None =>
                await (start_conversation_session langsmith_config bot None)
            end);;
         response <-
           await (ask_question_by_keywords bot (Some (question request))
                    None ["session_id"]);;
         hret {| answer :=
                   dict_get_default response "answer"
                     (PStr "I'm sorry, I couldn't process your question.");
                 sources := dict_get_default response "sources" (PList []);
                 company_identified :=
                   dict_get_default response "company_identified" PNone;
                 response_session_id := the_session_id |}
     end)%app
    (fun e =>
       await (logger_error "Chat processing failed"
                [("error", PStr (str_app e))]);;
       hraise (HTTPException 500
                 ("Chat processing failed: " ++ str_app e)))%app.

(** [end_session] *)
Definition end_session (chatbot : option (EnhancedQAChatbot E))
    (the_session_id : string) : H (world B E) dict :=
  htry_except
    (match chatbot with
     | Some bot =>
         if str_truthy the_session_id then
           let summary := "Session ended for user" in
           await (end_conversation_session langsmith_config bot
                    the_session_id (Some summary));;
           hret [("message", PStr "Session ended successfully");
                 ("session_id", PStr the_session_id)]
         else
           hraise (HTTPException 400
                     "Invalid session or chatbot not initialized")
     | None =>
         hraise (HTTPException 400
                   "Invalid session or chatbot not initialized")
     end)%app
    (fun e =>
       await (logger_error "Session end failed"
                [("error", PStr (str_app e))]);;
       hraise (HTTPException 500 ("Session end failed: " ++ str_app e)))%app.

(** [list_documents], over the method [list_processed_documents] of the
    document processor when there is one. *)
Definition list_documents
    (document_processor : option (E -> result pyval * E))
  : H (world B E) dict :=
  htry_except
    (match document_processor with
     | Some list_processed_documents =>
         documents <-
           await (fun w : world B E =>
                    let '(r, x) := list_processed_documents (w_ext w) in
                    (r, {| w_entropy := w_entropy w; w_drawn := w_drawn w;
                           w_backend := w_backend w; w_ext := x;
                           w_trace := w_trace w |}));;
         hret [("documents", documents)]
     | None => hret [("documents", PList [])]
     end)%app
    (fun e =>
       await (logger_error "Failed to list documents"
                [("error", PStr (str_app e))]);;
       hret [("documents", PList [])])%app.

End Main.

Arguments chat {B E} langsmith_config str_http unexpected_keyword
  missing_argument chatbot request.
Arguments end_session {B E} langsmith_config str_http chatbot the_session_id.
Arguments list_documents {B E} str_http document_processor.
Arguments ask_question_by_keywords {B E} langsmith_config unexpected_keyword
  missing_argument self the_question conversation_history others.

End Main.

(** ** Instances of the page *)

(** A page in the middle of a conversation of two interactions. *)
Definition test_page : App.Streamlit unit unit :=
  {| App.session_state :=
       {| App.chatbot := Some (Some mock_chatbot);
          App.document_processor := Some None;
          App.conversation_history :=
            Some [PDict [("question", PStr "What is the revenue?")];
                  PDict [("question", PStr "And the profit?")]];
          App.processed_documents := Some [];
          App.session_id := Some None;
          App.langsmith_enabled := Some true |};
     App.errors := [] |}.

(** The message for an absent key as a current Streamlit words it. *)
Definition streamlit_missing (name : string) : string :=
  let quote := String (ascii_of_nat 34) EmptyString in
  "st.session_state has no attribute " ++ quote ++ name ++ quote
  ++ ". Did you forget to initialize it? More info: "
  ++ "https://docs.streamlit.io/develop/concepts/architecture/session-state#initialization".

(** * Properties *)

(** ** Identifiers *)

Lemma uuid_str_truthy (i : N) : str_truthy (Uuid.uuid_str i) = true.
Proof.
  unfold Uuid.uuid_str.
  generalize (Uuid.hex_fixed 32 i); intro hex.
  destruct (Uuid.slice 0 8 hex); reflexivity.
Qed.

Lemma uuid_str_nonempty (i : N) : Uuid.uuid_str i <> "".
Proof.
  intro H. pose proof (uuid_str_truthy i) as T. rewrite H in T. discriminate.
Qed.

Lemma hex_digit_inj (a b : N) :
  (a < 16)%N -> (b < 16)%N -> Uuid.hex_digit a = Uuid.hex_digit b -> a = b.
Proof.
  intros Ha Hb.
  assert (Ea : exists n, (n < 16)%nat /\ a = N.of_nat n).
  { exists (N.to_nat a). split; lia. }
  assert (Eb : exists n, (n < 16)%nat /\ b = N.of_nat n).
  { exists (N.to_nat b). split; lia. }
  destruct Ea as (n & Hn & ->). destruct Eb as (m & Hm & ->).
  unfold Uuid.hex_digit. rewrite !Nat2N.id.
  do 16 (destruct n as [|n]; [do 16 (destruct m as [|m];
         [cbn; intro H; reflexivity || discriminate H|]); lia|]).
  lia.
Qed.

Lemma hex_fixed_length (n : nat) (v : N) :
  List.length (Uuid.hex_fixed n v) = n.
Proof.
  revert v. induction n as [|n IH]; intro v; cbn; [reflexivity|].
  rewrite length_app, IH. cbn. lia.
Qed.

(** The digits determine the number up to the width. *)
Lemma hex_fixed_inj (n : nat) (v v' : N) :
  Uuid.hex_fixed n v = Uuid.hex_fixed n v' ->
  (v mod 16 ^ N.of_nat n = v' mod 16 ^ N.of_nat n)%N.
Proof.
  revert v v'. induction n as [|n IH]; intros v v' H.
  - cbn. now rewrite !N.mod_1_r.
  - cbn [Uuid.hex_fixed] in H. apply app_inj_tail in H. destruct H as [H Hd].
    apply IH in H.
    apply hex_digit_inj in Hd; try (apply N.mod_lt; discriminate).
    rewrite Nat2N.inj_succ, N.pow_succ_r'.
    rewrite !N.Div0.mod_mul_r. now rewrite H, Hd.
Qed.

(** The dashes of the 8-4-4-4-12 layout lose no digit. *)
Lemma grouped_inj (h h' : list ascii) :
  List.length h = 32%nat -> List.length h' = 32%nat ->
  (Uuid.slice 0 8 h ++ Uuid.dash :: Uuid.slice 8 12 h ++ Uuid.dash ::
   Uuid.slice 12 16 h ++ Uuid.dash :: Uuid.slice 16 20 h ++ Uuid.dash ::
   skipn 20 h)%list =
  (Uuid.slice 0 8 h' ++ Uuid.dash :: Uuid.slice 8 12 h' ++ Uuid.dash ::
   Uuid.slice 12 16 h' ++ Uuid.dash :: Uuid.slice 16 20 h' ++ Uuid.dash ::
   skipn 20 h')%list ->
  h = h'.
Proof.
  intros L L' H.
  do 32 (destruct h as [|? h]; [discriminate L|]).
  destruct h; [|discriminate L].
  do 32 (destruct h' as [|? h']; [discriminate L'|]).
  destruct h'; [|discriminate L'].
  cbn in H. injection H. intros. subst. reflexivity.
Qed.

Lemma uuid_str_inj (i j : N) :
  Uuid.uuid_str i = Uuid.uuid_str j -> (i mod 2 ^ 128 = j mod 2 ^ 128)%N.
Proof.
  unfold Uuid.uuid_str. intro H.
  apply (f_equal list_ascii_of_string) in H.
  rewrite !list_ascii_of_string_of_list_ascii in H.
  apply grouped_inj in H; try apply hex_fixed_length.
  apply hex_fixed_inj in H. exact H.
Qed.

Lemma log2_lt_128 (a : N) : (a < 2 ^ 128)%N -> (N.log2 a < 128)%N.
Proof.
  intro H. destruct (N.eq_dec a 0) as [->|Hn]; [reflexivity|].
  apply N.log2_lt_pow2; [lia | exact H].
Qed.

Lemma lor_lt_128 (a b : N) :
  (a < 2 ^ 128)%N -> (b < 2 ^ 128)%N -> (N.lor a b < 2 ^ 128)%N.
Proof.
  intros Ha Hb.
  destruct (N.eq_dec (N.lor a b) 0) as [->|Hn]; [reflexivity|].
  apply N.log2_lt_pow2; [lia|].
  rewrite N.log2_lor.
  apply log2_lt_128 in Ha. apply log2_lt_128 in Hb. lia.
Qed.

Lemma uuid4_int_lt (r : N) : (Uuid.uuid4_int r < 2 ^ 128)%N.
Proof.
  unfold Uuid.uuid4_int.
  apply lor_lt_128; [|reflexivity].
  eapply N.le_lt_trans; [apply N.ldiff_le_l|].
  apply lor_lt_128; [|reflexivity].
  eapply N.le_lt_trans; [apply N.ldiff_le_l|].
  apply N.mod_lt. discriminate.
Qed.

(** Two version-4 UUIDs that print alike are the same number. *)
Lemma uuid4_str_inj (r r' : N) :
  Uuid.uuid_str (Uuid.uuid4_int r) = Uuid.uuid_str (Uuid.uuid4_int r') ->
  Uuid.uuid4_int r = Uuid.uuid4_int r'.
Proof.
  intro H. apply uuid_str_inj in H.
  rewrite !N.mod_small in H by apply uuid4_int_lt. exact H.
Qed.

(** ** Traces *)

Lemma client_calls_app (t1 t2 : list event) :
  client_calls (t1 ++ t2) = (client_calls t1 ++ client_calls t2)%list.
Proof. apply flat_map_app. Qed.

Lemma stage_calls_app (t1 t2 : list event) :
  stage_calls (t1 ++ t2) = (stage_calls t1 ++ stage_calls t2)%list.
Proof. apply flat_map_app. Qed.

Lemma client_calls_logs (t : list event) :
  Forall is_log t -> client_calls t = [].
Proof.
  induction 1 as [|ev t Hev _ IH]; [reflexivity|].
  destruct ev; simpl in *; try contradiction. exact IH.
Qed.

Lemma stage_calls_logs (t : list event) :
  Forall is_log t -> stage_calls t = [].
Proof.
  induction 1 as [|ev t Hev _ IH]; [reflexivity|].
  destruct ev; simpl in *; try contradiction. exact IH.
Qed.

(** ** The observability sink *)

Section SinkFacts.

Variables B E : Type.
Variable cfg : LangSmithConfig B.

Lemma after_sink_id (w : world B E) : after_sink w (w_backend w) [] = w.
Proof. destruct w; unfold after_sink; simpl. now rewrite app_nil_r. Qed.

(** [create_run] returns, leaving a world that differs by the backend and by
    the call (when the sink reaches its client) followed by log lines. *)
Lemma create_run_spec (name : string) (inputs kwargs : dict) (w : world B E) :
  exists v b logs,
    create_run cfg name inputs kwargs w =
      (Ok v,
       after_sink w b
         ((if sink_on cfg
           then [EvClient (CreateRun name inputs (project_name cfg) kwargs)]
           else []) ++ logs))
    /\ Forall is_log logs.
Proof.
  unfold create_run, sink_on.
  destruct (enabled cfg), (client cfg) as [c|]; simpl;
    try (exists PNone, (w_backend w), []; rewrite after_sink_id; now split).
  unfold try_except, call_backend.
  destruct (client_create_run c name inputs (project_name cfg) kwargs
              (w_backend w)) as [[v|e] b].
  - exists v, b, []. split; [|constructor].
    unfold after_sink; simpl. reflexivity.
  - exists PNone, b, [EvLog ERROR "Failed to create LangSmith run"
                        [("error", PStr (str_exn e))]].
    split; [|repeat constructor].
    unfold after_sink, bind, logger_error, emit, ret; simpl.
    now rewrite <- app_assoc.
Qed.

Lemma end_run_spec (run_id : string) (outputs : option dict)
    (error : option exn) (w : world B E) :
  exists b logs,
    end_run cfg run_id outputs error w =
      (Ok tt,
       after_sink w b
         ((if sink_on cfg then [EvClient (EndRun run_id outputs error)]
           else []) ++ logs))
    /\ Forall is_log logs.
Proof.
  unfold end_run, sink_on.
  destruct (enabled cfg), (client cfg) as [c|]; simpl;
    try (exists (w_backend w), []; rewrite after_sink_id; now split).
  unfold try_except, call_backend.
  destruct (client_end_run c run_id outputs error (w_backend w))
    as [[[]|e] b].
  - exists b, []. split; [|constructor].
    unfold after_sink; simpl. reflexivity.
  - exists b, [EvLog ERROR "Failed to end LangSmith run"
                 [("error", PStr (str_exn e))]].
    split; [|repeat constructor].
    unfold after_sink, logger_error, emit; simpl.
    now rewrite <- app_assoc.
Qed.

End SinkFacts.

(** ** Symbolic runs *)

Arguments Uuid.uuid_str : simpl never.
Arguments Uuid.uuid4_int : simpl never.
Arguments create_run : simpl never.
Arguments end_run : simpl never.

Ltac run :=
  repeat progress
    (cbv beta delta [try_except bind lift set_local get_local ret raise
                     when_run uuid4_str logger_info logger_error emit
                     call_ext with_local];
     cbn; rewrite ?uuid_str_truthy).

Ltac sink_step :=
  match goal with
  | |- context [create_run ?c ?n ?i ?k ?w] =>
      let v := fresh "v" in
      let b := fresh "b" in
      let logs := fresh "logs" in
      let Hl := fresh "Hlogs" in
      let Heq := fresh "Heq" in
      destruct (create_run_spec _ _ c n i k w) as (v & b & logs & Heq & Hl);
      rewrite Heq; clear Heq; run
  | |- context [end_run ?c ?r ?o ?e ?w] =>
      let b := fresh "b" in
      let logs := fresh "logs" in
      let Hl := fresh "Hlogs" in
      let Heq := fresh "Heq" in
      destruct (end_run_spec _ _ c r o e w) as (b & logs & Heq & Hl);
      rewrite Heq; clear Heq; run
  end.

Ltac finish_trace := repeat rewrite <- app_assoc; reflexivity.

Ltac calls_of_trace :=
  repeat rewrite client_calls_app; repeat rewrite stage_calls_app;
  repeat match goal with
         | H : Forall is_log ?l |- _ =>
             rewrite ?(client_calls_logs l H), ?(stage_calls_logs l H);
             clear H
         end;
  cbn.

Ltac conclude cfg :=
  do 2 eexists; split; [reflexivity|]; cbn;
  split; [reflexivity|]; split; [finish_trace|];
  destruct (sink_on cfg); calls_of_trace; split; reflexivity.

(** ** The conversational orchestrator *)

Section AskQuestion.

Variables B E : Type.
Variable cfg : LangSmithConfig B.

(** [ask_question] is the pipeline of its three stages, whatever the
    tracing does: it returns or raises what the pipeline does, leaves the
    collaborators' state that the pipeline leaves, calls the stages that the
    pipeline calls, and the calls that reach the client are those of the
    outcome. *)
Lemma ask_question_run (self : EnhancedQAChatbot E) (question : string)
    (h : option (list pyval)) (w : world B E) :
  let o := run_stages self question (w_ext w) in
  exists w' delta,
    ask_question cfg self question h w = (outcome_result question o, w')
    /\ w_ext w' = outcome_ext o
    /\ w_trace w' = (w_trace w ++ delta)%list
    /\ stage_calls delta = outcome_stage_calls question o
    /\ client_calls delta =
         if enable_tracing self && sink_on cfg
         then outcome_client_calls cfg self question h (nth_uuid w 0)
                (nth_uuid w 1) (nth_uuid w 2) (nth_uuid w 3) o
         else [].
Proof.
  unfold ask_question, run_stages, nth_uuid.
  destruct (enable_tracing self) eqn:Ht; run.
  - do 2 sink_step.
    destruct (_extract_company_info self question (w_ext w)) as [[ci|e] x1];
      run; do 2 sink_step; [|conclude cfg].
    destruct (_search_documents self ci question x1) as [[docs|e] x2];
      run; do 2 sink_step; [|conclude cfg].
    destruct (_generate_answer self question docs ci x2) as [[a|e] x3];
      run; do 2 sink_step; conclude cfg.
  - destruct (_extract_company_info self question (w_ext w)) as [[ci|e] x1];
      run; [|conclude cfg].
    destruct (_search_documents self ci question x1) as [[docs|e] x2];
      run; [|conclude cfg].
    destruct (_generate_answer self question docs ci x2) as [[a|e] x3];
      run; conclude cfg.
Qed.

Lemma run_stages_answered (self : EnhancedQAChatbot E) (question : string)
    (x0 x1 x2 x3 : E) (company_info answer : pyval)
    (relevant_docs : list pyval) :
  _extract_company_info self question x0 = (Ok company_info, x1) ->
  _search_documents self company_info question x1 = (Ok relevant_docs, x2) ->
  _generate_answer self question relevant_docs company_info x2
    = (Ok answer, x3) ->
  run_stages self question x0 = Answered company_info relevant_docs answer x3.
Proof. intros H1 H2 H3. unfold run_stages. now rewrite H1, H2, H3. Qed.

Lemma run_stages_failure (self : EnhancedQAChatbot E) (question : string)
    (x0 x : E) (e : exn) (calls : list stage_call) :
  stage_failure self question x0 e calls x ->
  let o := run_stages self question x0 in
  outcome_result question o = Raise e
  /\ outcome_stage_calls question o = calls
  /\ outcome_ext o = x.
Proof.
  unfold run_stages.
  destruct 1 as [x1 H1 | ci x1 x2 H1 H2 | ci x1 docs x2 x3 H1 H2 H3];
    rewrite H1, ?H2, ?H3; cbn; auto.
Qed.

(** An answer comes from three stages that succeeded. *)
Lemma run_stages_ok (self : EnhancedQAChatbot E) (question : string)
    (x0 : E) (record : dict) :
  outcome_result question (run_stages self question x0) = Ok record ->
  exists company_info x1 relevant_docs x2 answer x3,
    _extract_company_info self question x0 = (Ok company_info, x1)
    /\ _search_documents self company_info question x1
         = (Ok relevant_docs, x2)
    /\ _generate_answer self question relevant_docs company_info x2
         = (Ok answer, x3)
    /\ run_stages self question x0
         = Answered company_info relevant_docs answer x3
    /\ record = exchange question answer company_info relevant_docs.
Proof.
  unfold run_stages.
  destruct (_extract_company_info self question x0) as [[ci|e] x1] eqn:H1;
    [|discriminate].
  destruct (_search_documents self ci question x1) as [[docs|e] x2] eqn:H2;
    [|discriminate].
  destruct (_generate_answer self question docs ci x2) as [[a|e] x3] eqn:H3;
    [|discriminate].
  cbn. intros [= <-]. exists ci, x1, docs, x2, a, x3.
  repeat split; assumption || reflexivity.
Qed.

End AskQuestion.

(** ** Claims on [ask_question] *)

(** C1: when one of the three stages (company extraction, document search,
    answer generation) raises, the later stages are not called, no exchange
    record is returned and the error of the stage is raised to the caller
    as it is, whatever the tracing is and does. *)
Theorem ask_question_stage_failure (B E : Type) (cfg : LangSmithConfig B)
    (self : EnhancedQAChatbot E) (question : string)
    (h : option (list pyval)) (w : world B E) (e : exn)
    (calls : list stage_call) (x : E) :
  stage_failure self question (w_ext w) e calls x ->
  exists w' delta,
    ask_question cfg self question h w = (Raise e, w')
    /\ w_trace w' = (w_trace w ++ delta)%list
    /\ stage_calls delta = calls
    /\ w_ext w' = x.
Proof.
  intro F. apply run_stages_failure in F. destruct F as (Hr & Hc & Hx).
  destruct (ask_question_run B E cfg self question h w)
    as (w' & delta & Heq & Hext & Htr & Hst & _).
  exists w', delta. rewrite Heq, Hr, Hst, Hc, Hext, Hx. auto.
Qed.

Lemma ask_question_stage_failure_witness :
  let q := "What is the revenue?" in
  stage_failure blind_chatbot q (w_ext test_world) search_failure
    [ExtractCompanyInfo q;
     SearchDocuments (PDict [("name", PStr "Test Corp")]) q] tt
  /\ exists w' delta,
       ask_question tracing_on blind_chatbot q None test_world
         = (Raise search_failure, w')
       /\ w_trace w' = (w_trace test_world ++ delta)%list
       /\ stage_calls delta =
            [ExtractCompanyInfo q;
             SearchDocuments (PDict [("name", PStr "Test Corp")]) q]
       /\ w_ext w' = tt.
Proof.
  split.
  - eapply search_fails; reflexivity.
  - apply ask_question_stage_failure. eapply search_fails; reflexivity.
Defined.

(** C2: when the three collaborators succeed, [ask_question] returns the
    record of the question, the generator's answer, the extractor's company
    info, the searcher's documents and their number, each as it was
    returned. *)
Theorem ask_question_exchange (B E : Type) (cfg : LangSmithConfig B)
    (self : EnhancedQAChatbot E) (question : string)
    (h : option (list pyval)) (w : world B E)
    (company_info answer : pyval) (relevant_docs : list pyval)
    (x1 x2 x3 : E) :
  _extract_company_info self question (w_ext w) = (Ok company_info, x1) ->
  _search_documents self company_info question x1 = (Ok relevant_docs, x2) ->
  _generate_answer self question relevant_docs company_info x2
    = (Ok answer, x3) ->
  exists w',
    ask_question cfg self question h w =
      (Ok [("question", PStr question);
           ("answer", answer);
           ("company_info", company_info);
           ("sources", PList relevant_docs);
           ("document_count", PInt (len relevant_docs))], w').
Proof.
  intros H1 H2 H3.
  destruct (ask_question_run B E cfg self question h w)
    as (w' & delta & Heq & _).
  rewrite (run_stages_answered _ _ _ _ _ _ _ _ _ _ H1 H2 H3) in Heq.
  exists w'. exact Heq.
Qed.

Lemma ask_question_exchange_witness :
  exists w',
    ask_question tracing_on mock_chatbot "What is the revenue?" None
                 test_world =
      (Ok [("question", PStr "What is the revenue?");
           ("answer", PStr "Test answer");
           ("company_info", PDict [("name", PStr "Test Corp")]);
           ("sources", PList [PStr "doc1"; PStr "doc2"]);
           ("document_count", PInt 2)], w').
Proof.
  exact (ask_question_exchange unit unit tracing_on mock_chatbot
           "What is the revenue?" None test_world
           (PDict [("name", PStr "Test Corp")]) (PStr "Test answer")
           [PStr "doc1"; PStr "doc2"] tt tt tt
           eq_refl eq_refl eq_refl).
Defined.

(** C3: in every record that [ask_question] returns, [sources] is the list
    that the document searcher returned and [document_count] is the length
    of that list. *)
Theorem ask_question_document_count (B E : Type) (cfg : LangSmithConfig B)
    (self : EnhancedQAChatbot E) (question : string)
    (h : option (list pyval)) (w w' : world B E) (record : dict) :
  ask_question cfg self question h w = (Ok record, w') ->
  exists company_info x1 relevant_docs x2,
    _extract_company_info self question (w_ext w) = (Ok company_info, x1)
    /\ _search_documents self company_info question x1
         = (Ok relevant_docs, x2)
    /\ dict_get record "sources" = Some (PList relevant_docs)
    /\ dict_get record "document_count" = Some (PInt (len relevant_docs)).
Proof.
  intro H.
  destruct (ask_question_run B E cfg self question h w)
    as (w1 & delta & Heq & _).
  rewrite H in Heq. injection Heq as Hr _. symmetry in Hr.
  apply run_stages_ok in Hr.
  destruct Hr as (ci & x1 & docs & x2 & a & x3 & H1 & H2 & _ & _ & ->).
  exists ci, x1, docs, x2. repeat split; assumption || reflexivity.
Qed.

Lemma ask_question_document_count_witness :
  exists company_info x1 relevant_docs x2,
    _extract_company_info mock_chatbot "What is the revenue?" tt
      = (Ok company_info, x1)
    /\ _search_documents mock_chatbot company_info "What is the revenue?" x1
         = (Ok relevant_docs, x2)
    /\ dict_get (exchange "What is the revenue?" (PStr "Test answer")
                   (PDict [("name", PStr "Test Corp")])
                   [PStr "doc1"; PStr "doc2"]) "sources"
         = Some (PList relevant_docs)
    /\ dict_get (exchange "What is the revenue?" (PStr "Test answer")
                   (PDict [("name", PStr "Test Corp")])
                   [PStr "doc1"; PStr "doc2"]) "document_count"
         = Some (PInt (len relevant_docs)).
Proof.
  eapply (ask_question_document_count unit unit tracing_off mock_chatbot
            "What is the revenue?" None test_world).
  vm_compute. reflexivity.
Defined.

(** ** Claims on the agent execution contract *)

(** C4: for every agent and input, with tracing on or off and whatever the
    sink does, [execute] returns the value that [_execute] returns or raises
    the error that [_execute] raises, calls it once, and leaves the
    collaborators' state as [_execute] leaves it. *)
Theorem execute_is_bare_execute (B E : Type) (cfg : LangSmithConfig B)
    (self : EnhancedBaseAgent E) (input_data : dict) (w : world B E) :
  exists w' delta,
    execute cfg self input_data w
      = (fst (_execute self input_data (w_ext w)), w')
    /\ w_ext w' = snd (_execute self input_data (w_ext w))
    /\ w_trace w' = (w_trace w ++ delta)%list
    /\ stage_calls delta = [AgentExecute input_data].
Proof.
  unfold execute.
  destruct (agent_enable_tracing self) eqn:Ht; run.
  - sink_step.
    destruct (_execute self input_data (w_ext w)) as [[r|e] x]; run;
      sink_step; do 2 eexists; (split; [reflexivity|]); cbn;
      (split; [reflexivity|]); (split; [finish_trace|]);
      destruct (sink_on cfg); calls_of_trace; reflexivity.
  - destruct (_execute self input_data (w_ext w)) as [[r|e] x]; run;
      do 2 eexists; (split; [reflexivity|]); cbn;
      (split; [reflexivity|]); (split; [finish_trace|]); reflexivity.
Qed.

(** C10: when the model call returns a response, [_call_llm] returns the
    [content] attribute of the response if it has one, and the string of
    the response otherwise. *)
Theorem call_llm_content (B E : Type) (cfg : LangSmithConfig B)
    (self : EnhancedBaseAgent E) (messages : list message) (kwargs : dict)
    (w : world B E) (response0 : response) (x : E) :
  ainvoke (llm self) messages kwargs (w_ext w) = (Ok response0, x) ->
  exists w',
    _call_llm cfg self messages kwargs w =
      (Ok match dict_get (resp_attrs response0) "content" with
          | Some content => content
          | None => PStr (resp_str response0)
          end, w').
Proof.
  intro H. unfold _call_llm, getattr.
  destruct (agent_enable_tracing self) eqn:Ht; run.
  - sink_step. rewrite H; run. sink_step. eexists; reflexivity.
  - rewrite H; run. eexists; reflexivity.
Qed.

Lemma call_llm_content_witness :
  (exists w',
     _call_llm tracing_on (MockEnhancedAgent mock_llm true)
               [{| msg_content := PStr "test" |}] [] test_world
       = (Ok (PStr "test response"), w'))
  /\ (exists w',
        _call_llm tracing_on (MockEnhancedAgent bare_llm true)
                  [{| msg_content := PStr "test" |}] [] test_world
          = (Ok (PStr "plain text"), w')).
Proof.
  split.
  - exact (call_llm_content unit unit tracing_on
             (MockEnhancedAgent mock_llm true)
             [{| msg_content := PStr "test" |}] [] test_world _ tt eq_refl).
  - exact (call_llm_content unit unit tracing_on
             (MockEnhancedAgent bare_llm true)
             [{| msg_content := PStr "test" |}] [] test_world _ tt eq_refl).
Defined.

(** ** Claims on the observability sink *)

Lemma create_run_off (B E : Type) (cfg : LangSmithConfig B) (name : string)
    (inputs kwargs : dict) (w : world B E) :
  sink_on cfg = false -> create_run cfg name inputs kwargs w = (Ok PNone, w).
Proof.
  unfold sink_on, create_run.
  destruct (enabled cfg), (client cfg); simpl; intro H;
    discriminate || reflexivity.
Qed.

Lemma end_run_off (B E : Type) (cfg : LangSmithConfig B) (run_id : string)
    (outputs : option dict) (error : option exn) (w : world B E) :
  sink_on cfg = false -> end_run cfg run_id outputs error w = (Ok tt, w).
Proof.
  unfold sink_on, end_run.
  destruct (enabled cfg), (client cfg); simpl; intro H;
    discriminate || reflexivity.
Qed.

(** C5: [create_run] and [end_run] return to their caller on every input.
    With tracing disabled they change nothing, and [create_run] returns
    [None].  With tracing enabled and a client call that raises, the error
    is caught and logged, [create_run] returns [None], and [ask_question]
    over collaborators that succeed still returns its exchange. *)
Theorem sink_never_raises (B E : Type) (cfg : LangSmithConfig B) :
  (forall name inputs kwargs (w : world B E),
      exists v w', create_run cfg name inputs kwargs w = (Ok v, w'))
  /\ (forall run_id outputs error (w : world B E),
         exists w', end_run cfg run_id outputs error w = (Ok tt, w'))
  /\ (enabled cfg = false ->
      forall w : world B E,
        (forall name inputs kwargs,
            create_run cfg name inputs kwargs w = (Ok PNone, w))
        /\ (forall run_id outputs error,
               end_run cfg run_id outputs error w = (Ok tt, w)))
  /\ (forall c name inputs kwargs (w : world B E) e b,
         enabled cfg = true -> client cfg = Some c ->
         client_create_run c name inputs (project_name cfg) kwargs
                           (w_backend w) = (Raise e, b) ->
         create_run cfg name inputs kwargs w =
           (Ok PNone,
            after_sink w b
              [EvClient (CreateRun name inputs (project_name cfg) kwargs);
               EvLog ERROR "Failed to create LangSmith run"
                     [("error", PStr (str_exn e))]]))
  /\ (forall c run_id outputs error (w : world B E) e b,
         enabled cfg = true -> client cfg = Some c ->
         client_end_run c run_id outputs error (w_backend w) = (Raise e, b) ->
         end_run cfg run_id outputs error w =
           (Ok tt,
            after_sink w b
              [EvClient (EndRun run_id outputs error);
               EvLog ERROR "Failed to end LangSmith run"
                     [("error", PStr (str_exn e))]]))
  /\ (forall (self : EnhancedQAChatbot E) question h (w : world B E)
             company_info answer relevant_docs x1 x2 x3,
         _extract_company_info self question (w_ext w)
           = (Ok company_info, x1) ->
         _search_documents self company_info question x1
           = (Ok relevant_docs, x2) ->
         _generate_answer self question relevant_docs company_info x2
           = (Ok answer, x3) ->
         exists w',
           ask_question cfg self question h w
             = (Ok (exchange question answer company_info relevant_docs),
                w')).
Proof.
  repeat split.
  - intros. destruct (create_run_spec B E cfg name inputs kwargs w)
      as (v & b & logs & Heq & _). eauto.
  - intros. destruct (end_run_spec B E cfg run_id outputs error w)
      as (b & logs & Heq & _). eauto.
  - intros. apply create_run_off. unfold sink_on. now rewrite H.
  - intros. apply end_run_off. unfold sink_on. now rewrite H.
  - intros c name inputs kwargs w e b He Hc Hr.
    unfold create_run. rewrite He, Hc.
    unfold try_except, call_backend. rewrite Hr.
    unfold after_sink, bind, logger_error, emit, ret; simpl.
    now rewrite <- app_assoc.
  - intros c run_id outputs error w e b He Hc Hr.
    unfold end_run. rewrite He, Hc.
    unfold try_except, call_backend. rewrite Hr.
    unfold after_sink, logger_error, emit; simpl.
    now rewrite <- app_assoc.
  - intros self question h w ci a docs x1 x2 x3 H1 H2 H3.
    destruct (ask_question_run B E cfg self question h w)
      as (w' & delta & Heq & _).
    rewrite (run_stages_answered _ _ _ _ _ _ _ _ _ _ H1 H2 H3) in Heq.
    exists w'. exact Heq.
Qed.

Lemma sink_never_raises_witness :
  create_run tracing_off "test" [("test", PStr "data")] [] test_world
    = (Ok PNone, test_world)
  /\ end_run tracing_off "test-run-id" None None test_world
     = (Ok tt, test_world)
  /\ create_run tracing_unreachable "test" [("test", PStr "data")] []
                test_world
     = (Ok PNone,
        after_sink test_world tt
          [EvClient (CreateRun "test" [("test", PStr "data")]
                               "test-project" []);
           EvLog ERROR "Failed to create LangSmith run"
                 [("error", PStr "backend unreachable")]])
  /\ exists w',
       ask_question tracing_unreachable mock_chatbot "What is the revenue?"
                    None test_world
         = (Ok (exchange "What is the revenue?" (PStr "Test answer")
                         (PDict [("name", PStr "Test Corp")])
                         [PStr "doc1"; PStr "doc2"]), w').
Proof.
  destruct (sink_never_raises unit unit tracing_off)
    as (_ & _ & Hoff & _).
  destruct (sink_never_raises unit unit tracing_unreachable)
    as (_ & _ & _ & Hcreate & _ & Hask).
  destruct (Hoff eq_refl test_world) as (Hc & He).
  split; [apply Hc|]. split; [apply He|].
  split.
  - exact (Hcreate unreachable_client "test" [("test", PStr "data")] []
             test_world connection_error tt eq_refl eq_refl eq_refl).
  - exact (Hask mock_chatbot "What is the revenue?" None test_world
             _ _ _ tt tt tt eq_refl eq_refl eq_refl).
Defined.

(** ** Claims on the session lifecycle *)

(** C9: ending a session and ending it again at once both return to the
    caller, whatever the client does on either call; and with tracing
    disabled, ending a session only adds its log line. *)
Theorem end_conversation_session_twice (B E : Type) (cfg : LangSmithConfig B)
    (self : EnhancedQAChatbot E) (session_id : string)
    (summary summary' : option string) (w : world B E) :
  (exists w1 w2,
      end_conversation_session cfg self session_id summary w = (Ok tt, w1)
      /\ end_conversation_session cfg self session_id summary' w1
         = (Ok tt, w2))
  /\ (enable_tracing self = false \/ sink_on cfg = false ->
      end_conversation_session cfg self session_id summary w =
        (Ok tt,
         after_sink w (w_backend w)
           [EvLog INFO "Conversation session ended"
                  [("session_id", PStr session_id)]])).
Proof.
  assert (Hret : forall s (w0 : world B E), exists w1,
             end_conversation_session cfg self session_id s w0 = (Ok tt, w1)).
  { intros s w0. unfold end_conversation_session.
    destruct (enable_tracing self); run.
    - sink_step. eexists; reflexivity.
    - eexists; reflexivity. }
  split.
  - destruct (Hret summary w) as (w1 & H1).
    destruct (Hret summary' w1) as (w2 & H2). eauto.
  - intros Hoff. unfold end_conversation_session.
    destruct (enable_tracing self) eqn:Ht; run.
    + destruct Hoff as [Hoff|Hoff]; [discriminate|].
      rewrite end_run_off by exact Hoff. run. reflexivity.
    + reflexivity.
Qed.

Lemma end_conversation_session_twice_witness :
  (exists w1 w2,
      end_conversation_session tracing_unreachable mock_chatbot "session-1"
        (Some "Test summary") test_world = (Ok tt, w1)
      /\ end_conversation_session tracing_unreachable mock_chatbot "session-1"
           (Some "Test summary") w1 = (Ok tt, w2))
  /\ end_conversation_session tracing_off mock_chatbot "session-1"
       (Some "Test summary") test_world =
       (Ok tt,
        after_sink test_world tt
          [EvLog INFO "Conversation session ended"
                 [("session_id", PStr "session-1")]]).
Proof.
  destruct (end_conversation_session_twice unit unit tracing_unreachable
              mock_chatbot "session-1" (Some "Test summary")
              (Some "Test summary") test_world) as (Htwice & _).
  destruct (end_conversation_session_twice unit unit tracing_off
              mock_chatbot "session-1" (Some "Test summary")
              (Some "Test summary") test_world) as (_ & Hoff).
  split; [exact Htwice|]. apply Hoff. right. reflexivity.
Defined.

(** ** Claims on the spans of a question *)

Ltac close_spans :=
  repeat first
    [ apply spans_done
    | eapply spans_create; [reflexivity|]
    | apply (spans_end []); [exact I|] ].

Ltac all_no_error :=
  repeat first
    [ apply Forall_nil
    | apply Forall_cons; [cbn; try split; (exact I || discriminate
                                           || reflexivity)|] ].

(** C6: every span that [ask_question] opens is closed once, with outputs
    or with an error, by the time it returns or raises.  When it returns,
    each span was closed with outputs; when a stage raises, the spans of the
    stages before were closed with outputs, and the span of the failing
    stage and then the root span are closed with the error of the stage. *)
Theorem ask_question_spans_closed (B E : Type) (cfg : LangSmithConfig B)
    (self : EnhancedQAChatbot E) (question : string)
    (h : option (list pyval)) (w : world B E) :
  exists r w' delta,
    ask_question cfg self question h w = (r, w')
    /\ w_trace w' = (w_trace w ++ delta)%list
    /\ spans [] (client_calls delta)
    /\ match r with
       | Ok _ => Forall no_error (client_calls delta)
       | Raise e =>
           client_calls delta = []
           \/ exists before root child middle,
               client_calls delta =
                 (before ++ [EndRun child None (Some e);
                             EndRun root None (Some e)])%list
               /\ Forall no_error before
               /\ created_ids before = (root :: middle ++ [child])%list
       end.
Proof.
  destruct (ask_question_run B E cfg self question h w)
    as (w' & delta & Heq & _ & Htr & _ & Hcalls).
  exists (outcome_result question (run_stages self question (w_ext w))),
    w', delta.
  split; [exact Heq|]. split; [exact Htr|].
  rewrite Hcalls. clear Heq Htr Hcalls.
  destruct (enable_tracing self && sink_on cfg).
  2:{ split; [constructor|].
      destruct (outcome_result _ _); [constructor | now left]. }
  destruct (run_stages self question (w_ext w))
    as [e x | ci e x | ci docs e x | ci docs a x];
    cbn [outcome_client_calls outcome_result];
    unfold open_root, open_child;
    (split; [close_spans|]).
  - right. exists [open_root cfg self question h (nth_uuid w 0);
                   open_child cfg "company_extraction"
                     [("question", PStr question)] "company-extraction"
                     (nth_uuid w 1) (nth_uuid w 0)],
      (nth_uuid w 0), (nth_uuid w 1), [].
    split; [reflexivity|]. split; [all_no_error | reflexivity].
  - right. eexists [_; _; _; _], (nth_uuid w 0), (nth_uuid w 2),
      [nth_uuid w 1].
    split; [reflexivity|]. split; [all_no_error | reflexivity].
  - right. eexists [_; _; _; _; _; _], (nth_uuid w 0), (nth_uuid w 3),
      [nth_uuid w 1; nth_uuid w 2].
    split; [reflexivity|]. split; [all_no_error | reflexivity].
  - all_no_error.
Qed.

(** C7: with tracing enabled, when [ask_question] returns a record, the
    last call on the client closes the root span, the one that the first
    call opened, and its outputs are the returned record itself. *)
Theorem root_span_outputs (B E : Type) (cfg : LangSmithConfig B)
    (self : EnhancedQAChatbot E) (question : string)
    (h : option (list pyval)) (w w' : world B E) (record : dict) :
  enable_tracing self = true ->
  sink_on cfg = true ->
  ask_question cfg self question h w = (Ok record, w') ->
  exists delta middle,
    w_trace w' = (w_trace w ++ delta)%list
    /\ client_calls delta =
         (open_root cfg self question h (nth_uuid w 0) :: middle ++
          [EndRun (nth_uuid w 0) (Some record) None])%list.
Proof.
  intros Ht Hs H.
  destruct (ask_question_run B E cfg self question h w)
    as (w1 & delta & Heq & _ & Htr & _ & Hcalls).
  rewrite H in Heq. injection Heq as Hr <-. symmetry in Hr.
  rewrite Ht, Hs in Hcalls. cbn in Hcalls.
  apply run_stages_ok in Hr.
  destruct Hr as (ci & x1 & docs & x2 & a & x3 & _ & _ & _ & Ho & ->).
  rewrite Ho in Hcalls. cbn [outcome_client_calls] in Hcalls.
  exists delta. eexists [_; _; _; _; _; _].
  split; [exact Htr|]. rewrite Hcalls. reflexivity.
Qed.

Lemma root_span_outputs_witness :
  exists delta middle,
    w_trace (snd (ask_question tracing_on mock_chatbot "What is the revenue?"
                               None test_world))
      = (w_trace test_world ++ delta)%list
    /\ client_calls delta =
         (open_root tracing_on mock_chatbot "What is the revenue?" None
                    (nth_uuid test_world 0) :: middle ++
          [EndRun (nth_uuid test_world 0)
                  (Some [("question", PStr "What is the revenue?");
                         ("answer", PStr "Test answer");
                         ("company_info", PDict [("name", PStr "Test Corp")]);
                         ("sources", PList [PStr "doc1"; PStr "doc2"]);
                         ("document_count", PInt 2)]) None])%list.
Proof.
  apply (root_span_outputs unit unit tracing_on mock_chatbot
           "What is the revenue?" None test_world).
  - reflexivity.
  - reflexivity.
  - vm_compute. reflexivity.
Defined.

(** ** The wrapper *)

Lemma urandom_reads_run (B E : Type) (n : nat) (w : world B E) :
  urandom_reads n w = (Ok tt, after_reads n w).
Proof.
  revert w. induction n as [|n IH]; intro w.
  - destruct w; reflexivity.
  - cbn [urandom_reads]. unfold bind, os_urandom. rewrite IH.
    unfold after_reads. cbn. now rewrite Nat.add_succ_r.
Qed.

(** A decorated method is its body, run after the wrapper's reads. *)
Lemma traceable_run (B E A : Type) (name : string) (reads : nat)
    (method : M (world B E) A) (w : world B E) :
  traceable name reads method w = method (after_reads reads w).
Proof. unfold traceable, bind. now rewrite urandom_reads_run. Qed.

Lemma nth_uuid_after_reads (B E : Type) (n i : nat) (w : world B E) :
  nth_uuid (after_reads n w) i = nth_uuid w (i + n).
Proof. unfold nth_uuid, after_reads. cbn. now rewrite Nat.add_assoc. Qed.

(** ** The random bits of an identifier *)

Lemma overwrite_keeps (i m1 v1 m2 v2 : N) :
  N.ldiff v1 m1 = 0%N -> N.ldiff v2 m2 = 0%N ->
  N.ldiff (N.ldiff (N.lor (N.ldiff (N.lor (N.ldiff i m1) v1) m2) v2) m1) m2
  = N.ldiff (N.ldiff i m1) m2.
Proof.
  intros H1 H2. apply N.bits_inj. intro n.
  apply (f_equal (fun x => N.testbit x n)) in H1, H2.
  rewrite N.ldiff_spec, N.bits_0 in H1, H2.
  repeat first [rewrite N.ldiff_spec | rewrite N.lor_spec].
  revert H1 H2.
  destruct (N.testbit i n), (N.testbit m1 n), (N.testbit v1 n),
    (N.testbit m2 n), (N.testbit v2 n); cbn; congruence.
Qed.

Lemma overwrite_makes (i m1 v1 m2 v2 : N) :
  N.ldiff v1 m1 = 0%N -> N.ldiff v2 m2 = 0%N -> N.land v1 m2 = 0%N ->
  N.lor (N.ldiff (N.lor (N.ldiff i m1) v1) m2) v2
  = N.lor (N.lor (N.ldiff (N.ldiff i m1) m2) v1) v2.
Proof.
  intros H1 H2 H3. apply N.bits_inj. intro n.
  apply (f_equal (fun x => N.testbit x n)) in H1, H2, H3.
  rewrite N.ldiff_spec, N.bits_0 in H1, H2.
  rewrite N.land_spec, N.bits_0 in H3.
  repeat first [rewrite N.ldiff_spec | rewrite N.lor_spec].
  revert H1 H2 H3.
  destruct (N.testbit i n), (N.testbit m1 n), (N.testbit v1 n),
    (N.testbit m2 n), (N.testbit v2 n); cbn; congruence.
Qed.

(** Two reads give the same UUID exactly when they agree on the bits that
    [uuid4] keeps. *)
Lemma uuid4_int_random_bits (r r' : N) :
  Uuid.uuid4_int r = Uuid.uuid4_int r'
  <-> Uuid.random_bits r = Uuid.random_bits r'.
Proof.
  unfold Uuid.uuid4_int, Uuid.random_bits. split; intro H.
  - rewrite <- (overwrite_keeps (r mod 2 ^ 128) (N.shiftl 0xc000 48)
                  (N.shiftl 0x8000 48) (N.shiftl 0xf000 64) (N.shiftl 4 76))
      by reflexivity.
    rewrite <- (overwrite_keeps (r' mod 2 ^ 128) (N.shiftl 0xc000 48)
                  (N.shiftl 0x8000 48) (N.shiftl 0xf000 64) (N.shiftl 4 76))
      by reflexivity.
    now rewrite H.
  - rewrite (overwrite_makes (r mod 2 ^ 128)) by reflexivity.
    rewrite (overwrite_makes (r' mod 2 ^ 128)) by reflexivity.
    now rewrite H.
Qed.

Lemma uuid4_str_random_bits (r r' : N) :
  Uuid.uuid_str (Uuid.uuid4_int r) = Uuid.uuid_str (Uuid.uuid4_int r')
  <-> Uuid.random_bits r = Uuid.random_bits r'.
Proof.
  rewrite <- uuid4_int_random_bits. split; intro H.
  - now apply uuid4_str_inj.
  - now rewrite H.
Qed.

Lemma NoDup_map_iff (A X Y : Type) (f : A -> X) (g : A -> Y) (l : list A) :
  (forall a b, f a = f b <-> g a = g b) ->
  NoDup (map f l) <-> NoDup (map g l).
Proof.
  intro Hfg. induction l as [|a l IH]; cbn.
  - split; constructor.
  - split; intro H; inversion H as [|? ? Hnotin Hnd]; subst;
      (constructor; [|now apply IH]); intro Hin; apply Hnotin;
      apply in_map_iff in Hin; destruct Hin as (b & Heq & Hb);
      apply in_map_iff; exists b; (split; [|exact Hb]); now apply Hfg.
Qed.

Lemma NoDup_by_nodup (l : list N) : nodup N.eq_dec l = l -> NoDup l.
Proof. intro H. rewrite <- H. apply NoDup_nodup. Qed.

(** ** Claims on session identifiers *)

Section Sessions.

Variables B E : Type.
Variable cfg : LangSmithConfig B.
Variable self : EnhancedQAChatbot E.

Lemma start_conversation_session_spec (session_id : option string)
    (w : world B E) :
  exists b d,
    start_conversation_session cfg self session_id w =
      (Ok (if no_session_id session_id then nth_uuid w 0
           else match session_id with Some s => s | None => "" end),
       {| w_entropy := w_entropy w;
          w_drawn := (if no_session_id session_id then S (w_drawn w)
                      else w_drawn w);
          w_backend := b; w_ext := w_ext w;
          w_trace := (w_trace w ++ d)%list |}).
Proof.
  unfold start_conversation_session, nth_uuid.
  destruct session_id as [[|c s]|]; destruct (enable_tracing self);
    run; try sink_step; do 2 eexists; rewrite <- ?app_assoc; reflexivity.
Qed.

(** The decorated method: the wrapper's reads come before the one of
    [uuid4]. *)
Lemma conversation_session_spec (reads : nat) (session_id : option string)
    (w : world B E) :
  exists b d,
    traceable "conversation_session" reads
      (start_conversation_session cfg self session_id) w =
      (Ok (if no_session_id session_id then nth_uuid w reads
           else match session_id with Some s => s | None => "" end),
       {| w_entropy := w_entropy w;
          w_drawn := (if no_session_id session_id then S reads else reads)
                     + w_drawn w;
          w_backend := b; w_ext := w_ext w;
          w_trace := (w_trace w ++ d)%list |}).
Proof.
  rewrite traceable_run.
  destruct (start_conversation_session_spec session_id (after_reads reads w))
    as (b & d & Heq).
  exists b, d. rewrite Heq, nth_uuid_after_reads. cbn.
  destruct (no_session_id session_id); reflexivity.
Qed.

Lemma start_sessions_ids (reads n : nat) (w : world B E) :
  exists w',
    start_sessions cfg self reads n w
      = (Ok (map (fun i => nth_uuid w (reads + i * S reads)) (seq 0 n)), w')
    /\ w_entropy w' = w_entropy w
    /\ w_drawn w' = n * S reads + w_drawn w.
Proof.
  revert w. induction n as [|n IH]; intro w.
  - exists w. cbn. auto.
  - destruct (conversation_session_spec reads None w) as (b & d & Heq).
    cbn [no_session_id] in Heq.
    cbn [start_sessions]. unfold bind, ret. rewrite Heq. cbv beta iota.
    match goal with |- context [start_sessions cfg self reads n ?w1] =>
      destruct (IH w1) as (w' & Hn & Hent & Hdr) end.
    rewrite Hn. cbn in Hent, Hdr.
    exists w'. split; [|split; [exact Hent | lia]].
    f_equal. f_equal. cbn [seq map]. f_equal.
    + unfold nth_uuid. do 3 f_equal. lia.
    + rewrite <- seq_shift, map_map. apply map_ext. intro i.
      unfold nth_uuid. cbn [w_entropy w_drawn]. do 3 f_equal. lia.
Qed.

End Sessions.

(** C8, as the code has it: [start_conversation_session] returns to its
    caller with an id that is not empty.  Called with no id, or with the
    empty string, the id is a new [str(uuid.uuid4())], made from the read of
    [os.urandom] that follows those of the wrapper.  Called with an id that
    is not empty, it returns that id, at a first call as at a second on the
    same id.  The ids of [n] calls without id in a row are distinct from one
    another exactly when the reads of [os.urandom] behind them are, on the
    122 bits that [uuid4] keeps of a read: the method adds no check of its
    own to what [uuid4] gives. *)
Theorem start_conversation_session_ids (B E : Type) (cfg : LangSmithConfig B)
    (self : EnhancedQAChatbot E) (reads : nat) :
  (forall session_id (w : world B E),
      exists id w',
        traceable "conversation_session" reads
          (start_conversation_session cfg self session_id) w = (Ok id, w')
        /\ id <> "")
  /\ (forall session_id (w : world B E),
         session_id = None \/ session_id = Some "" ->
         exists w',
           traceable "conversation_session" reads
             (start_conversation_session cfg self session_id) w
             = (Ok (nth_uuid w reads), w')
           /\ w_drawn w' = S reads + w_drawn w)
  /\ (forall s (w : world B E),
         s <> "" ->
         exists w1 w2,
           traceable "conversation_session" reads
             (start_conversation_session cfg self (Some s)) w = (Ok s, w1)
           /\ traceable "conversation_session" reads
                (start_conversation_session cfg self (Some s)) w1
              = (Ok s, w2))
  /\ (forall n (w : world B E),
         exists ids w',
           start_sessions cfg self reads n w = (Ok ids, w')
           /\ ids = map (fun i => nth_uuid w (reads + i * S reads)) (seq 0 n)
           /\ List.length ids = n
           /\ (NoDup ids
               <-> NoDup (map Uuid.random_bits (session_reads w reads n)))).
Proof.
  repeat apply conj.
  - intros session_id w.
    destruct (conversation_session_spec B E cfg self reads session_id w)
      as (b & d & Heq).
    do 2 eexists. split; [exact Heq|].
    destruct session_id as [[|c s]|]; cbn;
      try apply uuid_str_nonempty; discriminate.
  - intros session_id w Hno.
    destruct (conversation_session_spec B E cfg self reads session_id w)
      as (b & d & Heq).
    destruct Hno as [-> | ->]; cbn in Heq; rewrite Heq; eexists;
      split; reflexivity.
  - intros s w Hs.
    assert (Hgiven : no_session_id (Some s) = false).
    { destruct s; [contradiction | reflexivity]. }
    destruct (conversation_session_spec B E cfg self reads (Some s) w)
      as (b & d & Heq).
    rewrite Hgiven in Heq. rewrite Heq.
    match goal with |- context [(Ok s, ?w1)] =>
      destruct (conversation_session_spec B E cfg self reads (Some s) w1)
        as (b' & d' & Heq') end.
    rewrite Hgiven in Heq'. do 2 eexists. split; [reflexivity | exact Heq'].
  - intros n w.
    destruct (start_sessions_ids B E cfg self reads n w) as (w' & Heq & _).
    do 2 eexists. split; [exact Heq|]. split; [reflexivity|].
    split; [now rewrite length_map, length_seq|].
    unfold session_reads, nth_uuid. rewrite map_map.
    apply NoDup_map_iff. intros i j. apply uuid4_str_random_bits.
Qed.

Lemma start_conversation_session_ids_witness :
  (exists w',
      traceable "conversation_session" 1
        (start_conversation_session tracing_on mock_chatbot None) test_world
        = (Ok "00000000-0000-4000-8000-000000000001", w')
      /\ w_drawn w' = 2)
  /\ (exists w1 w2,
         traceable "conversation_session" 1
           (start_conversation_session tracing_on mock_chatbot
              (Some "session-1")) test_world = (Ok "session-1", w1)
         /\ traceable "conversation_session" 1
              (start_conversation_session tracing_on mock_chatbot
                 (Some "session-1")) w1 = (Ok "session-1", w2))
  /\ (exists ids w',
         start_sessions tracing_on mock_chatbot 1 1000 test_world
           = (Ok ids, w')
         /\ List.length ids = 1000
         /\ NoDup ids).
Proof.
  destruct (start_conversation_session_ids unit unit tracing_on mock_chatbot 1)
    as (_ & Hfresh & Hgiven & Hmany).
  split; [|split].
  - exact (Hfresh None test_world (or_introl eq_refl)).
  - apply Hgiven. discriminate.
  - destruct (Hmany 1000 test_world) as (ids & w' & Heq & _ & Hlen & Hiff).
    exists ids, w'. split; [exact Heq|]. split; [exact Hlen|].
    apply Hiff. apply NoDup_by_nodup. vm_compute. reflexivity.
Defined.

(** Against C8 as it is stated: the empty string is an id that is not
    returned unchanged, whether the wrapper reads [os.urandom] or not. *)
Lemma start_conversation_session_counterexample :
  fst (traceable "conversation_session" 0
         (start_conversation_session tracing_off mock_chatbot (Some ""))
         test_world)
    = Ok "00000000-0000-4000-8000-000000000000"
  /\ fst (traceable "conversation_session" 1
            (start_conversation_session tracing_on mock_chatbot (Some ""))
            test_world)
     = Ok "00000000-0000-4000-8000-000000000001"
  /\ (Ok "00000000-0000-4000-8000-000000000000" : result string) <> Ok ""
  /\ (Ok "00000000-0000-4000-8000-000000000001" : result string) <> Ok "".
Proof.
  split; [vm_compute; reflexivity|].
  split; [vm_compute; reflexivity|].
  split; discriminate.
Qed.

(** * Further properties of the sink, the agent and the orchestrator *)

(** ** [LangSmithConfig.__init__] *)

(** What the construction of the sink yields, by cases on the environment
    and on the client constructor. *)
Lemma LangSmithConfig_init_spec (B E : Type)
    (environ : list (string * string))
    (Client_new : option string -> string -> result (Client B))
    (w : world B E) :
  exists cfg logs,
    LangSmithConfig_init environ Client_new w
      = (Ok cfg, after_sink w (w_backend w) logs)
    /\ Forall is_log logs
    /\ sink_on cfg = enabled cfg
    /\ (enabled cfg = true <->
        lower (getenv_default environ "LANGSMITH_TRACING" "false") = "true"
        /\ (exists k, getenv environ "LANGSMITH_API_KEY" = Some k /\ k <> "")
        /\ exists c,
             Client_new (getenv environ "LANGSMITH_API_KEY")
               (getenv_default environ "LANGSMITH_ENDPOINT"
                  "https://api.smith.langchain.com") = Ok c
             /\ client cfg = Some c)
    /\ project_name cfg
       = getenv_default environ "LANGSMITH_PROJECT" "financial-ai".
Proof.
  unfold LangSmithConfig_init.
  destruct (String.eqb_spec
              (lower (getenv_default environ "LANGSMITH_TRACING" "false"))
              "true") as [Hflag|Hflag].
  - destruct (getenv environ "LANGSMITH_API_KEY") as [[|c k]|] eqn:Hkey; run.
    + do 2 eexists. split; [unfold after_sink; reflexivity|].
      split; [repeat constructor|]. split; [reflexivity|].
      split; [|reflexivity]. split; [discriminate|].
      intros (_ & (k & [= <-] & Hk) & _). contradiction.
    + destruct (Client_new (Some (String c k)) _) as [cl|e] eqn:Hnew; run.
      * do 2 eexists. split; [unfold after_sink; reflexivity|].
        split; [repeat constructor|]. split; [reflexivity|].
        split; [|reflexivity]. split; [|reflexivity].
        intros _. split; [exact Hflag|].
        split; [exists (String c k); split; [reflexivity | discriminate]|].
        exists cl. split; reflexivity.
      * do 2 eexists. split; [unfold after_sink; reflexivity|].
        split; [repeat constructor|]. split; [reflexivity|].
        split; [|reflexivity]. split; [discriminate|].
        intros (_ & _ & (cl & [=] & _)).
    + do 2 eexists. split; [unfold after_sink; reflexivity|].
      split; [repeat constructor|]. split; [reflexivity|].
      split; [|reflexivity]. split; [discriminate|].
      intros (_ & (k & [=] & _) & _).
  - run. exists {| enabled := false;
                   api_key := getenv environ "LANGSMITH_API_KEY";
                   project_name :=
                     getenv_default environ "LANGSMITH_PROJECT" "financial-ai";
                   endpoint :=
                     getenv_default environ "LANGSMITH_ENDPOINT"
                       "https://api.smith.langchain.com";
                   client := None |}, [].
    split; [now rewrite after_sink_id|].
    split; [constructor|]. split; [reflexivity|].
    split; [|reflexivity]. split; [discriminate|].
    intros (H & _). contradiction.
Qed.

(** X1: the construction of the sink returns whatever the environment holds
    and whatever the client constructor does, changes the world by log
    lines only, and yields a configuration that is enabled exactly when
    LANGSMITH_TRACING is "true" in any letter case, LANGSMITH_API_KEY is a
    non-empty string and the client could be constructed; an enabled
    configuration holds its client. *)
Theorem LangSmithConfig_init_enabled (B E : Type)
    (environ : list (string * string))
    (Client_new : option string -> string -> result (Client B))
    (w : world B E) :
  exists cfg logs,
    LangSmithConfig_init environ Client_new w
      = (Ok cfg, after_sink w (w_backend w) logs)
    /\ Forall is_log logs
    /\ sink_on cfg = enabled cfg
    /\ (enabled cfg = true <->
        lower (getenv_default environ "LANGSMITH_TRACING" "false") = "true"
        /\ (exists k, getenv environ "LANGSMITH_API_KEY" = Some k /\ k <> "")
        /\ exists c,
             Client_new (getenv environ "LANGSMITH_API_KEY")
               (getenv_default environ "LANGSMITH_ENDPOINT"
                  "https://api.smith.langchain.com") = Ok c
             /\ client cfg = Some c)
    /\ project_name cfg
       = getenv_default environ "LANGSMITH_PROJECT" "financial-ai".
Proof. exact (LangSmithConfig_init_spec B E environ Client_new w). Qed.

(** X2: a configuration that asks for tracing without a usable key, or whose
    client cannot be constructed, comes out disabled and without client, and
    the reason is logged: a warning for the key, an error with the message
    of the exception for the client. *)
Theorem LangSmithConfig_init_downgrade (B E : Type)
    (environ : list (string * string))
    (Client_new : option string -> string -> result (Client B))
    (w : world B E) :
  lower (getenv_default environ "LANGSMITH_TRACING" "false") = "true" ->
  (getenv environ "LANGSMITH_API_KEY" = None
   \/ getenv environ "LANGSMITH_API_KEY" = Some "" ->
   exists cfg,
     LangSmithConfig_init environ Client_new w
       = (Ok cfg,
          after_sink w (w_backend w)
            [EvLog WARNING
               "LangSmith tracing is enabled but LANGSMITH_API_KEY is not set"
               []])
     /\ enabled cfg = false /\ client cfg = None)
  /\ (forall k e,
         getenv environ "LANGSMITH_API_KEY" = Some k -> k <> "" ->
         Client_new (Some k)
           (getenv_default environ "LANGSMITH_ENDPOINT"
              "https://api.smith.langchain.com") = Raise e ->
         exists cfg,
           LangSmithConfig_init environ Client_new w
             = (Ok cfg,
                after_sink w (w_backend w)
                  [EvLog ERROR "Failed to initialize LangSmith client"
                         [("error", PStr (str_exn e))]])
           /\ enabled cfg = false /\ client cfg = None).
Proof.
  intro Hflag. unfold LangSmithConfig_init. rewrite Hflag. cbn [String.eqb].
  rewrite ?String.eqb_refl.
  split.
  - intros [Hk|Hk]; rewrite Hk; run; eexists;
      (split; [unfold after_sink; reflexivity | split; reflexivity]).
  - intros k e Hk Hne Hnew. rewrite Hk.
    destruct k as [|c k]; [contradiction|]. run. rewrite Hnew. run.
    eexists. split; [unfold after_sink; reflexivity | split; reflexivity].
Qed.

Lemma LangSmithConfig_init_downgrade_witness :
  exists cfg,
    LangSmithConfig_init keyless_environ test_Client_new test_world
      = (Ok cfg,
         after_sink test_world tt
           [EvLog WARNING
              "LangSmith tracing is enabled but LANGSMITH_API_KEY is not set"
              []])
    /\ enabled cfg = false /\ client cfg = None.
Proof.
  destruct (LangSmithConfig_init_downgrade unit unit keyless_environ
              test_Client_new test_world eq_refl) as (Hkey & _).
  apply Hkey. left. reflexivity.
Defined.

(** ** The log lines of the sink *)

Lemma is_sink_log_is_log (logs : list event) :
  Forall is_sink_log logs -> Forall is_log logs.
Proof.
  apply Forall_impl. intros [l m f| |]; cbn; try contradiction. auto.
Qed.

Lemma create_run_spec_logs (B E : Type) (cfg : LangSmithConfig B)
    (name : string) (inputs kwargs : dict) (w : world B E) :
  exists v b logs,
    create_run cfg name inputs kwargs w =
      (Ok v,
       after_sink w b
         ((if sink_on cfg
           then [EvClient (CreateRun name inputs (project_name cfg) kwargs)]
           else []) ++ logs))
    /\ Forall is_sink_log logs.
Proof.
  unfold create_run, sink_on.
  destruct (enabled cfg), (client cfg) as [c|]; simpl;
    try (exists PNone, (w_backend w), []; rewrite after_sink_id; now split).
  unfold try_except, call_backend.
  destruct (client_create_run c name inputs (project_name cfg) kwargs
              (w_backend w)) as [[v|e] b].
  - exists v, b, []. split; [|constructor].
    unfold after_sink; simpl. reflexivity.
  - exists PNone, b, [EvLog ERROR "Failed to create LangSmith run"
                        [("error", PStr (str_exn e))]].
    split; [|constructor; [cbn; auto | constructor]].
    unfold after_sink, bind, logger_error, emit, ret; simpl.
    now rewrite <- app_assoc.
Qed.

Lemma end_run_spec_logs (B E : Type) (cfg : LangSmithConfig B)
    (run_id : string) (outputs : option dict) (error : option exn)
    (w : world B E) :
  exists b logs,
    end_run cfg run_id outputs error w =
      (Ok tt,
       after_sink w b
         ((if sink_on cfg then [EvClient (EndRun run_id outputs error)]
           else []) ++ logs))
    /\ Forall is_sink_log logs.
Proof.
  unfold end_run, sink_on.
  destruct (enabled cfg), (client cfg) as [c|]; simpl;
    try (exists (w_backend w), []; rewrite after_sink_id; now split).
  unfold try_except, call_backend.
  destruct (client_end_run c run_id outputs error (w_backend w))
    as [[[]|e] b].
  - exists b, []. split; [|constructor].
    unfold after_sink; simpl. reflexivity.
  - exists b, [EvLog ERROR "Failed to end LangSmith run"
                 [("error", PStr (str_exn e))]].
    split; [|constructor; [cbn; auto | constructor]].
    unfold after_sink, logger_error, emit; simpl.
    now rewrite <- app_assoc.
Qed.

(** A step of the sink that keeps what its log lines are. *)
Ltac sink_step_logs :=
  match goal with
  | |- context [create_run ?c ?n ?i ?k ?w] =>
      let v := fresh "v" in
      let b := fresh "b" in
      let logs := fresh "logs" in
      let Hl := fresh "Hsink" in
      let Heq := fresh "Heq" in
      destruct (create_run_spec_logs _ _ c n i k w)
        as (v & b & logs & Heq & Hl);
      rewrite Heq; clear Heq; run
  | |- context [end_run ?c ?r ?o ?e ?w] =>
      let b := fresh "b" in
      let logs := fresh "logs" in
      let Hl := fresh "Hsink" in
      let Heq := fresh "Heq" in
      destruct (end_run_spec_logs _ _ c r o e w) as (b & logs & Heq & Hl);
      rewrite Heq; clear Heq; run
  end.

Ltac logs_of_sink :=
  repeat match goal with
         | H : Forall is_sink_log ?l |- _ =>
             let H' := fresh "Hlogs" in
             pose proof (is_sink_log_is_log l H) as H';
             revert H
         end;
  intros.

Lemma not_sink_log (logs : list event) (l : log_level) (msg : string)
    (fields : dict) :
  Forall is_sink_log logs ->
  msg <> "Failed to create LangSmith run" ->
  msg <> "Failed to end LangSmith run" ->
  ~ In (EvLog l msg fields) logs.
Proof.
  intros H H1 H2 Hin. rewrite Forall_forall in H. apply H in Hin.
  destruct l; cbn in Hin; try contradiction. destruct Hin; contradiction.
Qed.

(** ** [trace_custom_event] *)

(** X3: [trace_custom_event] returns on every input and leaves the
    collaborators' state alone.  With tracing off it changes nothing.  With
    tracing on and a sink that reaches its client, it opens a span named
    after the event, with a fresh id and the session as parent, and closes
    it at once with [{"event_processed": True}].  Its own handler never
    runs: no line "Failed to trace custom event" is logged. *)
Theorem trace_custom_event_fire_and_forget (B E : Type)
    (cfg : LangSmithConfig B) (self : EnhancedQAChatbot E)
    (event_name : string) (data : dict) (session_id : option string)
    (w : world B E) :
  exists w' delta,
    trace_custom_event cfg self event_name data session_id w = (Ok tt, w')
    /\ w_trace w' = (w_trace w ++ delta)%list
    /\ w_ext w' = w_ext w
    /\ (enable_tracing self = false -> w' = w)
    /\ client_calls delta =
         (if enable_tracing self && sink_on cfg
          then [CreateRun event_name data (project_name cfg)
                  [("run_id", PStr (nth_uuid w 0));
                   ("tags", PList [PStr "custom-event"]);
                   ("parent_run_id", opt_str session_id)];
                EndRun (nth_uuid w 0)
                  (Some [("event_processed", PBool true)]) None]
          else [])
    /\ spans [] (client_calls delta)
    /\ forall l fields,
         ~ In (EvLog l "Failed to trace custom event" fields) delta.
Proof.
  unfold trace_custom_event, nth_uuid.
  destruct (enable_tracing self) eqn:Ht; run.
  - do 2 sink_step_logs. do 2 eexists.
    split; [reflexivity|]. cbn.
    split; [finish_trace|]. split; [reflexivity|].
    split; [discriminate|].
    assert (Hno : forall l fields,
               ~ In (EvLog l "Failed to trace custom event" fields)
                    (logs ++ logs0)%list).
    { intros l fields Hin. apply in_app_or in Hin.
      destruct Hin as [Hin|Hin];
        eapply not_sink_log in Hin; eauto; discriminate. }
    logs_of_sink.
    destruct (sink_on cfg); calls_of_trace.
    + split; [reflexivity|]. split; [close_spans|].
      intros l fields Hin. cbn in Hin. rewrite !in_app_iff in Hin. cbn in Hin.
      apply (Hno l fields). apply in_or_app.
      intuition discriminate.
    + split; [reflexivity|]. split; [constructor|].
      intros l fields Hin. cbn in Hin. rewrite !in_app_iff in Hin. cbn in Hin.
      apply (Hno l fields). apply in_or_app.
      intuition discriminate.
  - exists w, []. split; [reflexivity|]. split; [now rewrite app_nil_r|].
    repeat split; try constructor. intros l fields [].
Qed.

(** ** The spans of the agent *)

Ltac find_log :=
  match goal with
  | |- In ?x (?x :: _) => left; reflexivity
  | |- In _ (_ :: _) => right; find_log
  | |- In _ (_ ++ _)%list =>
      apply in_or_app; first [left; find_log | right; find_log]
  end.




(** ** What [ask_question] logs and draws *)

Lemma str_len_append (s1 s2 : string) :
  str_len (s1 ++ s2) = str_len s1 + str_len s2.
Proof.
  induction s1 as [|c s1 IH]; cbn; [reflexivity|]. rewrite IH. lia.
Qed.

Lemma str_len_prefix (n : nat) (s : string) :
  str_len (str_prefix n s) = Nat.min n (str_len s).
Proof.
  revert n. induction s as [|c s IH]; intro n; cbn.
  - now rewrite Nat.min_0_r.
  - destruct (continuation c) eqn:Hc; cbn.
    + rewrite Hc. apply IH.
    + destruct n as [|n]; cbn; [reflexivity|]. now rewrite Hc, IH.
Qed.

Lemma str_prefix_prefix (n : nat) (s : string) :
  exists rest, s = str_prefix n s ++ rest.
Proof.
  revert n. induction s as [|c s IH]; intro n; cbn.
  - now exists "".
  - destruct (continuation c).
    + destruct (IH n) as (rest & H). exists rest. cbn. now rewrite <- H.
    + destruct n as [|n].
      * now exists (String c s).
      * destruct (IH n) as (rest & H). exists rest. cbn. now rewrite <- H.
Qed.

(** Characters, not bytes: a letter with an accent is one character in two
    bytes. *)
Example str_len_code_points :
  str_len "née" = 3 /\ String.length "née" = 4
  /\ str_prefix 2 "née" = "né".
Proof. repeat split. Qed.

Ltac refute_in H :=
  match type of H with
  | In _ (_ ++ _)%list =>
      apply in_app_or in H; destruct H as [H|H]; [refute_in H | refute_in H]
  | In _ (_ :: _) => destruct H as [H|H]; [discriminate H | refute_in H]
  | In _ [] => destruct H
  | In _ (if ?c then _ else _) => destruct c; refute_in H
  | In _ ?l =>
      exfalso; eapply (not_sink_log l); [ | | | exact H];
      [eassumption | discriminate | discriminate]
  end.

Ltac no_such_log :=
  let Hin := fresh "Hin" in intros ? ? Hin; refute_in Hin.

Ltac frame_done :=
  do 2 eexists; split; [reflexivity|]; cbn;
  split; [finish_trace|]; split; [reflexivity|]; split; [reflexivity|];
  split; [find_log|]; split; [find_log || no_such_log|];
  try no_such_log.

Section AskQuestionFrame.

Variables B E : Type.
Variable cfg : LangSmithConfig B.

(** One run of [ask_question]: the entropy source is left as it is, the
    ids drawn are one for the root and one for each stage called, and the
    log holds the line of the question and the line of the outcome. *)
Lemma ask_question_frame (self : EnhancedQAChatbot E) (question : string)
    (h : option (list pyval)) (w : world B E) :
  let o := run_stages self question (w_ext w) in
  exists w' delta,
    ask_question cfg self question h w = (outcome_result question o, w')
    /\ w_trace w' = (w_trace w ++ delta)%list
    /\ w_entropy w' = w_entropy w
    /\ w_drawn w' =
         (if enable_tracing self
          then S (List.length (outcome_stage_calls question o)) else 0)
         + w_drawn w
    /\ In (EvLog INFO "Processing question"
             [("question",
               PStr (if Nat.ltb 100 (str_len question)
                     then str_prefix 100 question ++ "..."
                     else question));
              ("tracing_enabled", PBool (enable_tracing self))]) delta
    /\ match o with
       | Answered company_info relevant_docs _ _ =>
           In (EvLog INFO "Question processed successfully"
                 [("document_count", PInt (len relevant_docs));
                  ("has_company", PBool (truthy company_info))]) delta
           /\ forall l fields,
               ~ In (EvLog l "Failed to process question" fields) delta
       | ExtractionFailed e _ | SearchFailed _ e _
       | GenerationFailed _ _ e _ =>
           In (EvLog ERROR "Failed to process question"
                 [("error", PStr (str_exn e))]) delta
           /\ forall l fields,
               ~ In (EvLog l "Question processed successfully" fields) delta
       end.
Proof.
  unfold ask_question, run_stages.
  destruct (enable_tracing self) eqn:Ht; run.
  - do 2 sink_step_logs.
    destruct (_extract_company_info self question (w_ext w)) as [[ci|e] x1];
      run; do 2 sink_step_logs; [|frame_done].
    destruct (_search_documents self ci question x1) as [[docs|e] x2];
      run; do 2 sink_step_logs; [|frame_done].
    destruct (_generate_answer self question docs ci x2) as [[a|e] x3];
      run; do 2 sink_step_logs; frame_done.
  - destruct (_extract_company_info self question (w_ext w)) as [[ci|e] x1];
      run; [|frame_done].
    destruct (_search_documents self ci question x1) as [[docs|e] x2];
      run; [|frame_done].
    destruct (_generate_answer self question docs ci x2) as [[a|e] x3];
      run; frame_done.
Qed.

End AskQuestionFrame.

Lemma ask_question_deltas (B E : Type) (cfg : LangSmithConfig B)
    (self : EnhancedQAChatbot E) (question : string)
    (h : option (list pyval)) (w : world B E) :
  let o := run_stages self question (w_ext w) in
  exists w' delta,
    ask_question cfg self question h w = (outcome_result question o, w')
    /\ w_trace w' = (w_trace w ++ delta)%list
    /\ stage_calls delta = outcome_stage_calls question o
    /\ w_entropy w' = w_entropy w
    /\ w_drawn w' =
         (if enable_tracing self
          then S (List.length (outcome_stage_calls question o)) else 0)
         + w_drawn w
    /\ client_calls delta =
         if enable_tracing self && sink_on cfg
         then outcome_client_calls cfg self question h (nth_uuid w 0)
                (nth_uuid w 1) (nth_uuid w 2) (nth_uuid w 3) o
         else [].
Proof.
  intro o.
  destruct (ask_question_run B E cfg self question h w)
    as (w1 & d1 & Heq1 & _ & Htr1 & Hst & Hcl).
  destruct (ask_question_frame B E cfg self question h w)
    as (w2 & d2 & Heq2 & Htr2 & Hent & Hdr & _).
  fold o in Heq1, Heq2, Hst, Hdr, Hcl.
  rewrite Heq1 in Heq2. injection Heq2 as <-.
  exists w1, d1. repeat split; assumption.
Qed.

(** X6: the line that [ask_question] logs for a question shows the question
    itself up to 100 characters, and its first 100 characters followed by
    three dots beyond, so never more than 103 characters; characters are
    code points, of one byte or of several. *)
Theorem ask_question_logged_question (B E : Type) (cfg : LangSmithConfig B)
    (self : EnhancedQAChatbot E) (question : string)
    (h : option (list pyval)) (w : world B E) :
  exists r w' delta shown,
    ask_question cfg self question h w = (r, w')
    /\ w_trace w' = (w_trace w ++ delta)%list
    /\ In (EvLog INFO "Processing question"
             [("question", PStr shown);
              ("tracing_enabled", PBool (enable_tracing self))]) delta
    /\ str_len shown <= 103
    /\ (str_len question <= 100 -> shown = question)
    /\ (100 < str_len question ->
        shown = str_prefix 100 question ++ "..."
        /\ str_len shown = 103
        /\ str_len (str_prefix 100 question) = 100
        /\ exists rest, question = str_prefix 100 question ++ rest).
Proof.
  destruct (ask_question_frame B E cfg self question h w)
    as (w' & delta & Heq & Htr & _ & _ & Hlog & _).
  do 4 eexists. split; [exact Heq|]. split; [exact Htr|].
  split; [exact Hlog|].
  destruct (Nat.ltb_spec 100 (str_len question)) as [Hlong|Hshort].
  - assert (P : str_len (str_prefix 100 question) = 100).
    { rewrite str_len_prefix. lia. }
    assert (L : str_len (str_prefix 100 question ++ "...") = 103).
    { rewrite str_len_append, P. reflexivity. }
    split; [lia|]. split; [lia|]. intros _.
    split; [reflexivity|]. split; [exact L|]. split; [exact P|].
    apply str_prefix_prefix.
  - split; [lia|]. split; [reflexivity | lia].
Qed.

(** X7: [ask_question] logs its outcome once: when it returns a record, the
    line "Question processed successfully" with the record's document count
    and whether its company info is truthy, and no failure line; when it
    raises, the line "Failed to process question" with the message of the
    error, and no success line. *)
Theorem ask_question_outcome_logged (B E : Type) (cfg : LangSmithConfig B)
    (self : EnhancedQAChatbot E) (question : string)
    (h : option (list pyval)) (w : world B E) :
  exists r w' delta,
    ask_question cfg self question h w = (r, w')
    /\ w_trace w' = (w_trace w ++ delta)%list
    /\ match r with
       | Ok record =>
           (exists company_info count,
               dict_get record "company_info" = Some company_info
               /\ dict_get record "document_count" = Some count
               /\ In (EvLog INFO "Question processed successfully"
                        [("document_count", count);
                         ("has_company", PBool (truthy company_info))])
                     delta)
           /\ forall l fields,
               ~ In (EvLog l "Failed to process question" fields) delta
       | Raise e =>
           In (EvLog ERROR "Failed to process question"
                 [("error", PStr (str_exn e))]) delta
           /\ forall l fields,
               ~ In (EvLog l "Question processed successfully" fields) delta
       end.
Proof.
  destruct (ask_question_frame B E cfg self question h w)
    as (w' & delta & Heq & Htr & _ & _ & _ & Hout).
  do 3 eexists. split; [exact Heq|]. split; [exact Htr|].
  destruct (run_stages self question (w_ext w))
    as [e x | ci e x | ci docs e x | ci docs a x]; cbn; try exact Hout.
  destruct Hout as (Hin & Hno). split; [|exact Hno].
  exists ci, (PInt (len docs)). repeat split; assumption || reflexivity.
Qed.

(** X8: [ask_question] leaves the entropy source as it is and, after the
    reads of the wrapper, draws one id for the root span and one for each
    stage it calls when it traces, and no id when it does not; the ids of
    the spans it opens are the ids it drew, in the order of the draws. *)
Theorem ask_question_ids_drawn (B E : Type) (cfg : LangSmithConfig B)
    (self : EnhancedQAChatbot E) (question : string)
    (h : option (list pyval)) (reads : nat) (w : world B E) :
  exists r w' delta,
    traceable "chatbot_query" reads (ask_question cfg self question h) w
      = (r, w')
    /\ w_trace w' = (w_trace w ++ delta)%list
    /\ w_entropy w' = w_entropy w
    /\ w_drawn w' =
         reads
         + (if enable_tracing self
            then 1 + List.length (stage_calls delta) else 0)
         + w_drawn w
    /\ 1 <= List.length (stage_calls delta) <= 3
    /\ created_ids (client_calls delta) =
         if enable_tracing self && sink_on cfg
         then map (nth_uuid w) (seq reads (1 + List.length (stage_calls delta)))
         else [].
Proof.
  rewrite traceable_run.
  destruct (ask_question_deltas B E cfg self question h (after_reads reads w))
    as (w' & delta & Heq & Htr & Hst & Hent & Hdr & Hcl).
  do 3 eexists. split; [exact Heq|]. split; [exact Htr|].
  split; [exact Hent|]. rewrite Hst, Hcl, !nth_uuid_after_reads.
  cbn [w_drawn w_ext after_reads] in *.
  split; [rewrite Hdr; destruct (enable_tracing self); cbn; lia|].
  destruct (run_stages self question (w_ext w));
    (split; [cbn; lia|]);
    destruct (enable_tracing self), (sink_on cfg); reflexivity.
Qed.

(** ** [ask_question] without a reachable sink *)

Ltac off_step cfg :=
  repeat progress
    (rewrite ?(create_run_off _ _ cfg), ?(end_run_off _ _ cfg) by assumption;
     run).

Lemma ask_question_off (B E : Type) (cfg : LangSmithConfig B)
    (self : EnhancedQAChatbot E) (question : string)
    (h : option (list pyval)) (w : world B E) :
  enable_tracing self = false \/ sink_on cfg = false ->
  exists r w' delta,
    ask_question cfg self question h w = (r, w')
    /\ w_trace w' = (w_trace w ++ delta)%list
    /\ w_backend w' = w_backend w
    /\ client_calls delta = [].
Proof.
  intro Hoff. unfold ask_question.
  destruct (enable_tracing self) eqn:Ht; run.
  - destruct Hoff as [Hoff|Hoff]; [discriminate|].
    off_step cfg.
    destruct (_extract_company_info self question (w_ext w)) as [[ci|e] x1];
      run; off_step cfg;
      [|do 3 eexists; split; [reflexivity|]; cbn;
        split; [finish_trace|]; split; reflexivity].
    destruct (_search_documents self ci question x1) as [[docs|e] x2];
      run; off_step cfg;
      [|do 3 eexists; split; [reflexivity|]; cbn;
        split; [finish_trace|]; split; reflexivity].
    destruct (_generate_answer self question docs ci x2) as [[a|e] x3];
      run; off_step cfg;
      do 3 eexists; (split; [reflexivity|]); cbn;
      (split; [finish_trace|]); split; reflexivity.
  - destruct (_extract_company_info self question (w_ext w)) as [[ci|e] x1];
      run;
      [|do 3 eexists; split; [reflexivity|]; cbn;
        split; [finish_trace|]; split; reflexivity].
    destruct (_search_documents self ci question x1) as [[docs|e] x2];
      run;
      [|do 3 eexists; split; [reflexivity|]; cbn;
        split; [finish_trace|]; split; reflexivity].
    destruct (_generate_answer self question docs ci x2) as [[a|e] x3];
      run;
      do 3 eexists; (split; [reflexivity|]); cbn;
      (split; [finish_trace|]); split; reflexivity.
Qed.

(** X9: when the chatbot does not trace, or the sink is disabled or has no
    client, [ask_question] leaves the tracing backend untouched and no call
    reaches a client. *)
Theorem ask_question_sink_off (B E : Type) (cfg : LangSmithConfig B)
    (self : EnhancedQAChatbot E) (question : string)
    (h : option (list pyval)) (w : world B E) :
  enable_tracing self = false \/ sink_on cfg = false ->
  exists r w' delta,
    ask_question cfg self question h w = (r, w')
    /\ w_trace w' = (w_trace w ++ delta)%list
    /\ w_backend w' = w_backend w
    /\ client_calls delta = [].
Proof. exact (ask_question_off B E cfg self question h w). Qed.

Lemma ask_question_sink_off_witness :
  exists r w' delta,
    ask_question tracing_off mock_chatbot "What is the revenue?" None
                 test_world = (r, w')
    /\ w_trace w' = (w_trace test_world ++ delta)%list
    /\ w_backend w' = w_backend test_world
    /\ client_calls delta = [].
Proof.
  apply ask_question_sink_off. right. reflexivity.
Defined.

(** ** The life of a session *)

Section SessionLife.

Variables B E : Type.
Variable cfg : LangSmithConfig B.
Variable self : EnhancedQAChatbot E.

Lemma start_conversation_session_calls (session_id : option string)
    (w : world B E) :
  let id := session_id_of session_id w in
  exists w' delta,
    start_conversation_session cfg self session_id w = (Ok id, w')
    /\ w_trace w' = (w_trace w ++ delta)%list
    /\ w_ext w' = w_ext w
    /\ client_calls delta =
         (if enable_tracing self && sink_on cfg
         then [CreateRun (chatbot_name self ++ "_session")
                 [("session_id", PStr id)] (project_name cfg)
                 [("run_id", PStr id);
                  ("tags", PList [PStr "chatbot"; PStr "session"])]]
         else [])
    /\ stage_calls delta = [].
Proof.
  unfold start_conversation_session, session_id_of, nth_uuid.
  destruct session_id as [[|c s]|]; destruct (enable_tracing self);
    run; try sink_step; do 2 eexists; (split; [reflexivity|]); cbn;
    (split; [finish_trace|]); (split; [reflexivity|]);
    try destruct (sink_on cfg); calls_of_trace; split; reflexivity.
Qed.

Lemma end_conversation_session_calls (session_id : string)
    (summary : option string) (w : world B E) :
  exists w' delta,
    end_conversation_session cfg self session_id summary w = (Ok tt, w')
    /\ w_trace w' = (w_trace w ++ delta)%list
    /\ w_ext w' = w_ext w
    /\ client_calls delta =
         (if enable_tracing self && sink_on cfg
          then [EndRun session_id (Some (session_outputs summary)) None]
          else [])
    /\ stage_calls delta = [].
Proof.
  unfold end_conversation_session, session_outputs.
  destruct summary as [[|c s]|]; destruct (enable_tracing self);
    run; try sink_step; do 2 eexists; (split; [reflexivity|]); cbn;
    (split; [finish_trace|]); (split; [reflexivity|]);
    try destruct (sink_on cfg); calls_of_trace; split; reflexivity.
Qed.

End SessionLife.

Lemma spans_create_inv (open : list string) (name : string)
    (inputs : dict) (project : string) (kwargs : dict)
    (rest : list client_call) :
  spans open (CreateRun name inputs project kwargs :: rest) ->
  exists id,
    dict_get kwargs "run_id" = Some (PStr id) /\ spans (id :: open) rest.
Proof. intro H. inversion H; subst. eauto. Qed.

Lemma spans_end_inv (open : list string) (id : string)
    (outputs : option dict) (error : option exn) (rest : list client_call) :
  spans open (EndRun id outputs error :: rest) ->
  exists open1 open2,
    open = (open1 ++ id :: open2)%list
    /\ terminal outputs error
    /\ spans (open1 ++ open2) rest.
Proof. intro H. inversion H; subst. eauto 6. Qed.

(** X10: a session that is started and then ended on the id it was given
    leaves no span open: the calls that reach the client are the opening of
    the session's span, whose run id is the session id, and its closing
    with [session_ended] and, when it is not empty, the summary. *)
Theorem session_opened_then_closed (B E : Type) (cfg : LangSmithConfig B)
    (self : EnhancedQAChatbot E) (session_id summary : option string)
    (w : world B E) :
  let id := session_id_of session_id w in
  exists w1 w2 delta,
    start_conversation_session cfg self session_id w = (Ok id, w1)
    /\ end_conversation_session cfg self id summary w1 = (Ok tt, w2)
    /\ w_trace w2 = (w_trace w ++ delta)%list
    /\ client_calls delta =
         (if enable_tracing self && sink_on cfg
          then [CreateRun (chatbot_name self ++ "_session")
                  [("session_id", PStr id)] (project_name cfg)
                  [("run_id", PStr id);
                   ("tags", PList [PStr "chatbot"; PStr "session"])];
                EndRun id (Some (session_outputs summary)) None]
          else [])
    /\ spans [] (client_calls delta)
    /\ (dict_get (session_outputs summary) "summary" = None <->
        summary = None \/ summary = Some "").
Proof.
  intro id.
  destruct (start_conversation_session_calls B E cfg self session_id w)
    as (w1 & d1 & H1 & T1 & _ & C1 & _).
  destruct (end_conversation_session_calls B E cfg self id summary w1)
    as (w2 & d2 & H2 & T2 & _ & C2 & _).
  exists w1, w2, (d1 ++ d2)%list. fold id in H1, C1.
  split; [exact H1|]. split; [exact H2|].
  split; [now rewrite T2, T1, app_assoc|].
  rewrite client_calls_app, C1, C2.
  split; [destruct (enable_tracing self && sink_on cfg); reflexivity|].
  split.
  - destruct (enable_tracing self && sink_on cfg); cbn; [|constructor].
    eapply spans_create; [reflexivity|].
    apply (spans_end []); [|constructor].
    unfold session_outputs. destruct summary as [[|c s]|]; exact I.
  - unfold session_outputs. destruct summary as [[|c s]|]; cbn;
      split; auto; try discriminate.
    intros [H|H]; discriminate.
Qed.

(** X11: [end_conversation_session] keeps no record of the sessions it ended:
    with a sink that reaches its client, ending a started session twice
    sends a second close for a span that is open no more. *)
Theorem session_ended_twice_closes_twice (B E : Type)
    (cfg : LangSmithConfig B) (self : EnhancedQAChatbot E)
    (session_id summary summary' : option string) (w : world B E) :
  enable_tracing self = true ->
  sink_on cfg = true ->
  let id := session_id_of session_id w in
  exists w1 w2 w3 delta opening,
    start_conversation_session cfg self session_id w = (Ok id, w1)
    /\ end_conversation_session cfg self id summary w1 = (Ok tt, w2)
    /\ end_conversation_session cfg self id summary' w2 = (Ok tt, w3)
    /\ w_trace w3 = (w_trace w ++ delta)%list
    /\ client_calls delta =
         [opening;
          EndRun id (Some (session_outputs summary)) None;
          EndRun id (Some (session_outputs summary')) None]
    /\ spans [] [opening; EndRun id (Some (session_outputs summary)) None]
    /\ ~ spans [] (client_calls delta).
Proof.
  intros Ht Hs id.
  destruct (start_conversation_session_calls B E cfg self session_id w)
    as (w1 & d1 & H1 & T1 & _ & C1 & _).
  destruct (end_conversation_session_calls B E cfg self id summary w1)
    as (w2 & d2 & H2 & T2 & _ & C2 & _).
  destruct (end_conversation_session_calls B E cfg self id summary' w2)
    as (w3 & d3 & H3 & T3 & _ & C3 & _).
  rewrite Ht, Hs in C1, C2, C3. cbn in C1, C2, C3. fold id in H1, C1.
  exists w1, w2, w3, (d1 ++ d2 ++ d3)%list. eexists.
  split; [exact H1|]. split; [exact H2|]. split; [exact H3|].
  split; [now rewrite T3, T2, T1, <- !app_assoc|].
  rewrite !client_calls_app, C1, C2, C3. cbn.
  split; [reflexivity|]. split.
  - eapply spans_create; [reflexivity|].
    apply (spans_end []); [|constructor].
    unfold session_outputs. destruct summary as [[|c s]|]; exact I.
  - intro H.
    apply spans_create_inv in H. destruct H as (id' & Hid & H).
    cbn in Hid. injection Hid as <-.
    apply spans_end_inv in H. destruct H as (o1 & o2 & Hopen & _ & H).
    destruct o1 as [|a o1]; cbn in Hopen.
    + injection Hopen as <-. cbn in H.
      apply spans_end_inv in H. destruct H as (o1 & o2 & Hopen & _).
      destruct o1; discriminate Hopen.
    + injection Hopen as _ Hopen. destruct o1; discriminate Hopen.
Qed.

Lemma session_ended_twice_closes_twice_witness :
  let id := session_id_of None test_world in
  exists w1 w2 w3 delta opening,
    start_conversation_session tracing_on mock_chatbot None test_world
      = (Ok id, w1)
    /\ end_conversation_session tracing_on mock_chatbot id
         (Some "Test summary") w1 = (Ok tt, w2)
    /\ end_conversation_session tracing_on mock_chatbot id None w2
       = (Ok tt, w3)
    /\ w_trace w3 = (w_trace test_world ++ delta)%list
    /\ client_calls delta =
         [opening;
          EndRun id (Some (session_outputs (Some "Test summary"))) None;
          EndRun id (Some (session_outputs None)) None]
    /\ spans [] [opening;
                 EndRun id (Some (session_outputs (Some "Test summary")))
                        None]
    /\ ~ spans [] (client_calls delta).
Proof.
  exact (session_ended_twice_closes_twice unit unit tracing_on mock_chatbot
           None (Some "Test summary") None test_world eq_refl eq_refl).
Defined.

(** ** A chatbot in an environment without tracing *)

(** X12: in an environment that does not set LANGSMITH_TRACING to "true", or
    gives no API key or an empty one, a chatbot constructed on the sink of
    that environment does not trace, whatever it was asked at its
    construction: [ask_question] is the pipeline of its stages, it reads
    [os.urandom] no further than the wrapper did, and no call reaches the
    client of the sink. *)
Theorem untraced_environment (B E : Type)
    (environ : list (string * string))
    (Client_new : option string -> string -> result (Client B))
    (w0 w1 : world B E) (cfg : LangSmithConfig B)
    (extract : string -> E -> result pyval * E)
    (search : pyval -> string -> E -> result (list pyval) * E)
    (generate : string -> list pyval -> pyval -> E -> result pyval * E)
    (enable_tracing0 : bool) (question : string)
    (h : option (list pyval)) (reads : nat) (w : world B E) :
  LangSmithConfig_init environ Client_new w0 = (Ok cfg, w1) ->
  lower (getenv_default environ "LANGSMITH_TRACING" "false") <> "true"
  \/ getenv environ "LANGSMITH_API_KEY" = None
  \/ getenv environ "LANGSMITH_API_KEY" = Some "" ->
  let self :=
    EnhancedQAChatbot_init cfg extract search generate enable_tracing0 in
  let o := run_stages self question (w_ext w) in
  enable_tracing self = false
  /\ exists w' delta,
       traceable "chatbot_query" reads (ask_question cfg self question h) w
         = (outcome_result question o, w')
       /\ w_trace w' = (w_trace w ++ delta)%list
       /\ w_ext w' = outcome_ext o
       /\ stage_calls delta = outcome_stage_calls question o
       /\ w_drawn w' = reads + w_drawn w
       /\ client_calls delta = [].
Proof.
  intros Hinit Henv self o.
  destruct (LangSmithConfig_init_spec B E environ Client_new w0)
    as (cfg' & logs & Heq & _ & _ & Hen & _).
  rewrite Hinit in Heq. injection Heq as <- _.
  assert (Hoff : enabled cfg = false).
  { destruct (enabled cfg); [|reflexivity].
    destruct Hen as [Hen _]. destruct (Hen eq_refl) as (Hf & (k & Hk & Hne) & _).
    destruct Henv as [Henv | [Henv | Henv]].
    - contradiction.
    - rewrite Henv in Hk. discriminate.
    - rewrite Henv in Hk. injection Hk as <-. contradiction. }
  assert (Hself : enable_tracing self = false).
  { unfold self, EnhancedQAChatbot_init, is_enabled. cbn. rewrite Hoff.
    apply andb_false_r. }
  split; [exact Hself|]. rewrite traceable_run.
  destruct (ask_question_run B E cfg self question h (after_reads reads w))
    as (w' & delta & Hq & Hext & Htr & Hst & Hcl).
  destruct (ask_question_deltas B E cfg self question h (after_reads reads w))
    as (w2 & d2 & Hq2 & _ & _ & _ & Hdr & _).
  rewrite Hq in Hq2. injection Hq2 as <-.
  rewrite Hself in Hdr, Hcl. exists w', delta.
  repeat split; assumption.
Qed.

Lemma untraced_environment_witness :
  let self :=
    EnhancedQAChatbot_init tracing_off
      (_extract_company_info mock_chatbot) (_search_documents mock_chatbot)
      (_generate_answer mock_chatbot) true in
  let o := run_stages self "What is the revenue?" (w_ext test_world) in
  enable_tracing self = false
  /\ exists w' delta,
       traceable "chatbot_query" 1
         (ask_question tracing_off self "What is the revenue?" None)
         test_world = (outcome_result "What is the revenue?" o, w')
       /\ w_trace w' = (w_trace test_world ++ delta)%list
       /\ w_ext w' = outcome_ext o
       /\ stage_calls delta = outcome_stage_calls "What is the revenue?" o
       /\ w_drawn w' = 1 + w_drawn test_world
       /\ client_calls delta = [].
Proof.
  apply (untraced_environment unit unit keyless_environ test_Client_new
           test_world
           {| w_entropy := w_entropy test_world; w_drawn := 0;
              w_backend := tt; w_ext := tt;
              w_trace :=
                [EvLog WARNING
                   "LangSmith tracing is enabled but LANGSMITH_API_KEY is not set"
                   []] |}).
  - reflexivity.
  - right. left. reflexivity.
Defined.

(** ** The Azure settings *)

(** X13: Azure embeddings count as configured exactly when the embeddings
    endpoint, key and deployment are all set to non-empty strings.  The
    configuration then has the keys of the chat configuration, in the same
    order, takes its API version from the one setting that the chat
    configuration takes it from, and names the embeddings deployment. *)
Theorem embeddings_config_complete (self : AzureConfig) :
  (has_azure_embeddings self = true <->
   exists endpoint key deployment,
     azure_openai_embeddings_endpoint self = Some endpoint
     /\ azure_openai_embeddings_api_key self = Some key
     /\ azure_openai_embeddings_deployment self = Some deployment
     /\ endpoint <> "" /\ key <> "" /\ deployment <> "")
  /\ (get_embeddings_config self = None <-> has_azure_embeddings self = false)
  /\ forall config,
       get_embeddings_config self = Some config ->
       dict_keys config = dict_keys (get_chat_config self)
       /\ dict_get config "api_version"
          = dict_get (get_chat_config self) "api_version"
       /\ dict_get config "deployment_name"
          = Some (opt_str (embeddings_deployment self)).
Proof.
  unfold has_azure_embeddings, get_embeddings_config, embeddings_deployment,
    all.
  destruct (azure_openai_embeddings_endpoint self) as [[|c1 s1]|];
    destruct (azure_openai_embeddings_api_key self) as [[|c2 s2]|];
    destruct (azure_openai_embeddings_deployment self) as [[|c3 s3]|];
    cbn; repeat split;
    try discriminate; try reflexivity;
    try (intros (a & b & c & Ha & Hb & Hc & Na & Nb & Nc); congruence);
    try (intros _; do 3 eexists; repeat split; reflexivity || discriminate);
    try (intros config0 H; injection H as <-; reflexivity);
    match goal with H : Some _ = Some _ |- _ => injection H as <- end;
    reflexivity.
Qed.

(** ** The session functions of the Streamlit page *)

(** X14: [init_session_state] leaves every key that is set as it is, sets
    the six keys of the page that are not, and so changes nothing when it
    runs again: a rerun of the script keeps the conversation and the
    session. *)
Theorem init_session_state_keeps (B E DocumentProcessor : Type)
    (cfg : LangSmithConfig B)
    (ss : App.SessionState E DocumentProcessor) :
  let ss' := App.init_session_state cfg ss in
  (forall v, App.chatbot ss = Some v -> App.chatbot ss' = Some v)
  /\ (forall v, App.document_processor ss = Some v ->
                App.document_processor ss' = Some v)
  /\ (forall v, App.conversation_history ss = Some v ->
                App.conversation_history ss' = Some v)
  /\ (forall v, App.processed_documents ss = Some v ->
                App.processed_documents ss' = Some v)
  /\ (forall v, App.session_id ss = Some v -> App.session_id ss' = Some v)
  /\ (forall v, App.langsmith_enabled ss = Some v ->
                App.langsmith_enabled ss' = Some v)
  /\ (exists c p h d s l,
         ss' = {| App.chatbot := Some c;
                  App.document_processor := Some p;
                  App.conversation_history := Some h;
                  App.processed_documents := Some d;
                  App.session_id := Some s;
                  App.langsmith_enabled := Some l |})
  /\ App.init_session_state cfg ss' = ss'.
Proof.
  destruct ss as [[c|] [p|] [h|] [d|] [s|] [l|]]; cbn;
    repeat split; try (intros v H; exact H || discriminate H);
    do 6 eexists; reflexivity.
Qed.

Arguments start_conversation_session : simpl never.
Arguments end_conversation_session : simpl never.
Arguments ask_question : simpl never.
Arguments App.with_session_id : simpl never.

Ltac page_run :=
  repeat progress
    (cbv beta delta [try_except bind lift ret raise App.attr
                     App.set_session_id App.st_error logger_info
                     logger_error emit];
     cbn).

Section Page.

Variables B E DocumentProcessor : Type.
Variable cfg : LangSmithConfig B.
Variable missing : string -> string.

Lemma page_start_spec (st : App.Streamlit E DocumentProcessor)
    (w : world B E) (bot : EnhancedQAChatbot E) :
  App.chatbot (App.session_state st) = Some (Some bot) ->
  App.langsmith_enabled (App.session_state st) = Some true ->
  let id := nth_uuid w 0 in
  exists w1 delta,
    App.start_conversation_session cfg missing (st, w)
      = (Ok (Some id), (App.with_session_id (Some id) st, w1))
    /\ w_trace w1 = (w_trace w ++ delta)%list
    /\ w_ext w1 = w_ext w
    /\ client_calls delta =
         if enable_tracing bot && sink_on cfg
         then [CreateRun (chatbot_name bot ++ "_session")
                 [("session_id", PStr id)] (project_name cfg)
                 [("run_id", PStr id);
                  ("tags", PList [PStr "chatbot"; PStr "session"])]]
         else [].
Proof.
  intros Hbot Hen id.
  destruct (start_conversation_session_calls B E cfg bot None w)
    as (w1 & d1 & H1 & T1 & X1 & C1 & _).
  change (session_id_of None w) with id in H1, C1.
  unfold App.start_conversation_session.
  page_run. rewrite Hbot. page_run. rewrite Hen. page_run.
  rewrite H1. page_run.
  do 2 eexists. split; [reflexivity|]. cbn.
  split; [rewrite T1, <- app_assoc; reflexivity|].
  split; [exact X1|].
  rewrite client_calls_app, C1. cbn. now rewrite app_nil_r.
Qed.

Lemma page_end_spec (st : App.Streamlit E DocumentProcessor)
    (w : world B E) (bot : EnhancedQAChatbot E) (id : string)
    (history : list pyval) :
  App.session_id (App.session_state st) = Some (Some id) ->
  id <> "" ->
  App.chatbot (App.session_state st) = Some (Some bot) ->
  App.conversation_history (App.session_state st) = Some history ->
  let summary :=
    "Session with " ++ App.str_of_nat (List.length history)
    ++ " interactions" in
  exists w2 delta,
    App.end_conversation_session cfg missing (st, w)
      = (Ok tt, (App.with_session_id None st, w2))
    /\ w_trace w2 = (w_trace w ++ delta)%list
    /\ w_ext w2 = w_ext w
    /\ client_calls delta =
         if enable_tracing bot && sink_on cfg
         then [EndRun id
                 (Some [("session_ended", PBool true);
                        ("summary", PStr summary)]) None]
         else [].
Proof.
  intros Hid Hne Hbot Hhist summary.
  assert (Ht : str_truthy id = true) by (destruct id; [contradiction|easy]).
  unfold App.end_conversation_session.
  page_run. rewrite Hid. page_run. rewrite Ht. page_run.
  rewrite Hbot. page_run.
  rewrite Hhist. page_run.
  match goal with
  | |- context [end_conversation_session cfg bot ?i ?s ?wx] =>
      destruct (end_conversation_session_calls B E cfg bot i s wx)
        as (w2 & d2 & H2 & T2 & X2 & C2 & _); rewrite H2
  end.
  page_run. rewrite Hid. page_run.
  do 2 eexists. split; [reflexivity|]. cbn.
  split; [rewrite T2, <- app_assoc; reflexivity|]. split; [exact X2|].
  rewrite client_calls_app, C2. cbn. unfold session_outputs. cbn.
  now rewrite app_nil_r.
Qed.

End Page.



Ltac core_step B E cfg :=
  match goal with
  | |- context [start_conversation_session cfg ?bot ?i ?wx] =>
      let w1 := fresh "w1" in
      let b := fresh "b" in
      let d := fresh "d" in
      let H := fresh "Hstart" in
      destruct (start_conversation_session_spec B E cfg bot i wx)
        as (b & d & H); rewrite H; clear H
  | |- context [end_conversation_session cfg ?bot ?i ?s ?wx] =>
      let w1 := fresh "w1" in
      let d := fresh "d" in
      let H := fresh "Hend" in
      destruct (end_conversation_session_calls B E cfg bot i s wx)
        as (w1 & d & H & _); rewrite H; clear H
  end.

(** X16: the two session functions of the page return on every state of the
    page, also one whose keys are not set.  [start_conversation_session]
    returns an id, which is not empty and is then the session id of the
    state, or [None], and then the state is as it was;
    without a chatbot or with tracing disabled it does nothing at all.
    [end_conversation_session] shows no error, and does nothing at all
    when the state holds no session id or no chatbot. *)
Theorem page_session_never_raises (B E DocumentProcessor : Type)
    (cfg : LangSmithConfig B) (missing : string -> string)
    (st : App.Streamlit E DocumentProcessor) (w : world B E) :
  (exists r st' w',
      App.start_conversation_session cfg missing (st, w) = (Ok r, (st', w'))
      /\ match r with
         | Some id =>
             id <> ""
             /\ App.session_id (App.session_state st') = Some (Some id)
             /\ App.errors st' = App.errors st
         | None => App.session_state st' = App.session_state st
         end)
  /\ (App.chatbot (App.session_state st) = Some None
      \/ App.langsmith_enabled (App.session_state st) = Some false
         /\ App.chatbot (App.session_state st) <> None ->
      App.start_conversation_session cfg missing (st, w) = (Ok None, (st, w)))
  /\ (exists st' w',
         App.end_conversation_session cfg missing (st, w) = (Ok tt, (st', w'))
         /\ App.errors st' = App.errors st)
  /\ (App.session_id (App.session_state st) = Some None
      \/ App.session_id (App.session_state st) = Some (Some "")
      \/ App.session_id (App.session_state st) <> None
         /\ App.chatbot (App.session_state st) = Some None ->
      App.end_conversation_session cfg missing (st, w) = (Ok tt, (st, w))).
Proof.
  destruct st as [[c p h d s l] errs].
  unfold App.start_conversation_session, App.end_conversation_session.
  split; [|split; [|split]].
  - destruct c as [[bot|]|]; page_run;
      try (do 3 eexists; split; reflexivity).
    destruct l as [[|]|]; page_run;
      try (do 3 eexists; split; reflexivity).
    core_step B E cfg. page_run.
    do 3 eexists. split; [reflexivity|]. cbn.
    split; [apply uuid_str_nonempty | split; reflexivity].
  - cbn. intros [Hc | [Hl Hc]].
    + subst c. page_run. reflexivity.
    + subst l. destruct c as [[bot|]|]; page_run;
        reflexivity || contradiction.
  - destruct s as [[[|a id]|]|]; page_run;
      try (do 2 eexists; split; reflexivity).
    destruct c as [[bot|]|]; page_run;
      try (do 2 eexists; split; reflexivity).
    destruct h as [h|]; page_run;
      try (do 2 eexists; split; reflexivity).
    core_step B E cfg. page_run.
    do 2 eexists; split; reflexivity.
  - cbn. intros [Hs | [Hs | [Hs Hc]]].
    + subst s. page_run. reflexivity.
    + subst s. page_run. reflexivity.
    + subst c. destruct s as [[[|a id]|]|]; page_run;
        reflexivity || contradiction.
Qed.

(** ** The handlers of the FastAPI application *)

Ltac app_run :=
  repeat progress
    (cbv beta delta [Main.htry_except Main.hbind Main.hret Main.hraise Main.await
                     Main.ask_question_by_keywords Main.str_app raise
                     logger_error emit];
     cbn).


(** X18: [end_session] answers with its message exactly when there is a chatbot
    and the session id is not empty; the stages are not touched.  Otherwise
    the [HTTPException] of status 400 that it raises is caught by its own
    handler, logged, and turned into one of status 500: the handler never
    raises a 400. *)
Theorem end_session_status (B E : Type) (cfg : LangSmithConfig B)
    (str_http : Z -> string -> string)
    (chatbot : option (EnhancedQAChatbot E)) (session_id : string)
    (w : world B E) :
  let invalid :=
    str_http 400%Z "Invalid session or chatbot not initialized" in
  (forall bot,
      chatbot = Some bot -> session_id <> "" ->
      exists w' delta,
        Main.end_session cfg str_http chatbot session_id w
          = (Main.Returned [("message", PStr "Session ended successfully");
                           ("session_id", PStr session_id)], w')
        /\ w_trace w' = (w_trace w ++ delta)%list
        /\ w_ext w' = w_ext w
        /\ client_calls delta =
             if enable_tracing bot && sink_on cfg
             then [EndRun session_id
                     (Some [("session_ended", PBool true);
                            ("summary", PStr "Session ended for user")])
                     None]
             else [])
  /\ (chatbot = None \/ session_id = "" ->
      Main.end_session cfg str_http chatbot session_id w
        = (Main.Raised
             (Main.HTTPException 500 ("Session end failed: " ++ invalid)),
           after_sink w (w_backend w)
             [EvLog ERROR "Session end failed" [("error", PStr invalid)]]))
  /\ (forall status_code detail w',
         Main.end_session cfg str_http chatbot session_id w
           = (Main.Raised (Main.HTTPException status_code detail), w') ->
         status_code = 500%Z).
Proof.
  intro invalid. unfold Main.end_session.
  split; [|split].
  - intros bot -> Hne. destruct session_id as [|c s]; [contradiction|].
    app_run.
    match goal with
    | |- context [end_conversation_session cfg bot ?i ?s ?wx] =>
        destruct (end_conversation_session_calls B E cfg bot i s wx)
          as (w2 & d2 & H2 & T2 & X2 & C2 & _); rewrite H2
    end.
    app_run. exists w2, d2. auto.
  - intros [-> | ->]; [|destruct chatbot]; app_run; reflexivity.
  - destruct chatbot as [bot|]; [destruct session_id as [|c s]|]; app_run;
      try (intros status_code detail w' [= <- _ _]; reflexivity).
    match goal with
    | |- context [end_conversation_session cfg bot ?i ?s ?wx] =>
        destruct (end_conversation_session_calls B E cfg bot i s wx)
          as (w2 & d2 & H2 & _); rewrite H2
    end.
    app_run. intros status_code detail w' [=].
Qed.

Lemma end_session_status_witness :
  Main.end_session tracing_on (fun _ d => d) None "session-1" test_world
    = (Main.Raised
         (Main.HTTPException 500
            "Session end failed: Invalid session or chatbot not initialized"),
       after_sink test_world tt
         [EvLog ERROR "Session end failed"
                [("error",
                  PStr "Invalid session or chatbot not initialized")]]).
Proof.
  destruct (end_session_status unit unit tracing_on (fun _ d => d) None
              "session-1" test_world) as (_ & H & _).
  apply H. left. reflexivity.
Defined.

(** X19: [list_documents] never raises: it returns the documents that the
    processor lists, and an empty list when there is no processor or when
    the processor raises, which it logs. *)
Theorem list_documents_never_raises (B E : Type)
    (str_http : Z -> string -> string)
    (document_processor : option (E -> result pyval * E)) (w : world B E) :
  exists documents w' logs,
    Main.list_documents str_http document_processor w
      = (Main.Returned [("documents", documents)], w')
    /\ w_trace w' = (w_trace w ++ logs)%list
    /\ match document_processor with
       | None => documents = PList [] /\ w' = w
       | Some list_processed_documents =>
           match list_processed_documents (w_ext w) with
           | (Ok listed, x) =>
               documents = listed /\ logs = [] /\ w_ext w' = x
           | (Raise e, x) =>
               documents = PList []
               /\ logs = [EvLog ERROR "Failed to list documents"
                                [("error", PStr (str_exn e))]]
               /\ w_ext w' = x
           end
       end.
Proof.
  unfold Main.list_documents.
  destruct document_processor as [f|]; app_run.
  - destruct (f (w_ext w)) as [[listed|e] x]; app_run.
    + do 3 eexists. split; [reflexivity|]. cbn.
      split; [symmetry; apply app_nil_r | auto].
    + do 3 eexists. split; [reflexivity|]. cbn. auto.
  - exists (PList []), w, []. split; [reflexivity|].
    split; [symmetry; apply app_nil_r | auto].
Qed.
